(** * inertia daemon: teardown, log and up handlers

    A shallow embedding of the daemon's request handlers and of the container
    helpers they rest on:

    - [containers]  : src/unnamed/part_000 (ContainerLogs, getActiveContainers,
                      stopActiveContainers);
    - [daemon]      : src/unnamed/part_001 (downHandler) and
                      src/daemon/inertiad/daemon/logs.go (logHandler);
    - [inertiad]    : src/daemon/inertiad/up.go (upHandler).

    The Docker client, the deployment object, the logger and the decoders
    are collaborators whose code is outside these files.  They are
    interfaces here: records of operations over an abstract world, so every
    general theorem holds for every behaviour the collaborators may show.  A
    handler is a function from the world to its outcome, the world it leaves
    and the trace of the effects it performed, in program order.  [Sim] and
    [SimUp] are small concrete hosts on which the handlers run. *)

From Stdlib Require Import List String Ascii ZArith Bool Lia.
From Stdlib Require Import DecimalString.
Import ListNotations.

Set Implicit Arguments.
Local Open Scope string_scope.
Local Open Scope Z_scope.

(** ** Go values *)

(** Go error values.  [ErrNoContainers] is the package-level sentinel of
    part_000, which callers compare by identity; the others stand for the
    errors of the runtime and of the standard library. *)
Inductive error : Type :=
| ErrNoContainers
| NotFound (msg : string)
| SyntaxError (fn input : string)
| RangeError (fn input : string)
| Failure (msg : string).

(** [docker.IsErrNotFound]. *)
Definition IsErrNotFound (e : error) : bool :=
  match e with NotFound _ => true | _ => false end.

(** A text handed to a writer: a literal, or [err.Error()] of an error. *)
Inductive message : Type :=
| Text (s : string)
| ErrorText (e : error).

(** A Go pair [(value, err)]. *)
Inductive result (A : Type) : Type :=
| Ok (a : A)
| Err (e : error).
Arguments Ok {A} a.
Arguments Err {A} e.

(** net/http status codes used by the handlers. *)
Module http.
Definition StatusOK : Z := 200.
Definition StatusCreated : Z := 201.
Definition StatusBadRequest : Z := 400.
Definition StatusNotFound : Z := 404.
Definition StatusLengthRequired : Z := 411.
Definition StatusPreconditionFailed : Z := 412.
Definition StatusInternalServerError : Z := 500.
End http.

(** time.Duration counts nanoseconds. *)
Module time.
Definition Second : Z := 1000000000.
End time.

(** ** strconv *)

Module strconv.

Definition maxInt : Z := 9223372036854775807.
Definition minInt : Z := -9223372036854775808.

(** [strconv.ParseBool]: exactly these twelve spellings. *)
Definition ParseBool (str : string) : result bool :=
  if existsb (String.eqb str) ["1"; "t"; "T"; "true"; "TRUE"; "True"]
  then Ok true
  else if existsb (String.eqb str) ["0"; "f"; "F"; "false"; "FALSE"; "False"]
  then Ok false
  else Err (SyntaxError "ParseBool" str).

Definition digit (c : ascii) : option Z :=
  let n := Z.of_nat (nat_of_ascii c) in
  if (48 <=? n) && (n <=? 57) then Some (n - 48) else None.

Fixpoint digits (s : string) (acc : Z) : option Z :=
  match s with
  | EmptyString => Some acc
  | String c rest =>
      match digit c with
      | Some d => digits rest (10 * acc + d)
      | None => None
      end
  end.

(** [strconv.Atoi] for a 64-bit [int]: an optional sign, then one or more
    decimal digits; a value outside the range of [int] is an error. *)
Definition Atoi (s : string) : result Z :=
  let '(neg, body) :=
    match s with
    | String "-"%char rest => (true, rest)
    | String "+"%char rest => (false, rest)
    | _ => (false, s)
    end in
  match body with
  | EmptyString => Err (SyntaxError "Atoi" s)
  | _ =>
      match digits body 0 with
      | None => Err (SyntaxError "Atoi" s)
      | Some n =>
          let v := if neg then - n else n in
          if (minInt <=? v) && (v <=? maxInt) then Ok v
          else Err (RangeError "Atoi" s)
      end
  end.

End strconv.

(** ** Types of the packages the handlers import *)

(** docker/api/types: the fields the code reads or sets. *)
Module types.

Record Container : Type := {
  ID : string;
  Names : list string
}.

Record ContainerLogsOptions : Type := {
  ShowStdout : bool;
  ShowStderr : bool;
  Since : string;
  Timestamps : bool;
  Follow : bool;
  Tail : string;
  Details : bool
}.

End types.

(** inertia/common: the request of [up], the project configuration (its
    TOML fields are pointers, [None] is nil) and the deployment status. *)
Module common.

Record Git : Type := {
  Branch : string
}.

Record UpRequest : Type := {
  Stream : bool;
  GitOptions : Git;
  WebHookSecret : string
}.

Record BuildSection : Type := {
  Type_ : option string;
  ConfigPath : option string
}.

Record RepositorySection : Type := {
  RemoteURL : option string
}.

Record ProjectConfig : Type := {
  Project : option string;
  Build : BuildSection;
  Repository : RepositorySection
}.

Record DeploymentStatus : Type := {
  CommitHash : string;
  Containers : list string
}.

End common.

(** inertiad/project: the configuration and options of a deployment. *)
Module project.

Record DeploymentConfig : Type := {
  ProjectName : string;
  BuildType : string;
  BuildFilePath : string;
  RemoteURL : string;
  Branch : string;
  PemFilePath : string;
  DatabasePath : string
}.

Record DeployOptions : Type := {
  SkipUpdate : bool
}.

End project.

(** inertiad/log: the sinks a logger is built over. *)
Module log.

Record LoggerOptions : Type := {
  Stdout : bool;
  Socket : bool;
  HTTPWriter : bool;
  HTTPStream : bool
}.

End log.

(** net/url and net/http: the query values and the body of a request;
    [Body] is what [ioutil.ReadAll] yields. *)
Module url.

Definition Values : Type := list (string * list string).

Fixpoint lookup (v : Values) (key : string) : list string :=
  match v with
  | [] => []
  | (k, vs) :: rest => if String.eqb k key then vs else lookup rest key
  end.

(** [Values.Get]: the first value of the key, the empty string when the
    key has none. *)
Definition Get (v : Values) (key : string) : string :=
  match lookup v key with
  | [] => ""
  | first :: _ => first
  end.

End url.

Record Request : Type := {
  Query : url.Values;
  Body : result string
}.

(** ** Effects *)

(** What a handler does to the outside, with the answer it got. *)
Inductive event : Type :=
(* the Docker client *)
| CallContainerList (r : result (list types.Container))
| CallContainerStop (id : string) (timeout : Z) (r : option error)
| CallContainersPrune (r : option error)
| CallContainerLogs (container : string) (o : types.ContainerLogsOptions)
    (r : result string)
| CliClose
(* fmt.Fprintln on the writer a helper was given, and the builtin println *)
| Fprintln (line : string)
| Println (m : message)
(* http.ResponseWriter and the request body *)
| HttpError (m : message) (status : Z)
| SetHeader (key val : string)
| WriteHeader (status : Z)
| WriteBody (body : string)
| BodyClose
(* the logger *)
| NewLogger (o : log.LoggerOptions)
| LogPrintln (line : string)
| LogWriteErr (m : message) (status : Z)
| LogWriteSuccess (line : string) (status : Z)
| LogClose
(* log streaming *)
| CallUpgrade (r : option error)
| CallGetSocketWriter (r : option error)
| FlushRoutine
| LogsClose
| CloseStop
(* the deployment and the configuration *)
| SetWebhookSecret (s : string)
| CallReadProjectConfig (path : string) (r : option error)
| CallNewDockerClient (r : option error)
| CallGetStatus (r : option common.DeploymentStatus)
| CallInitialize (cfg : project.DeploymentConfig) (r : option error)
| CallCompareRemotes (url : string) (r : option error)
| CallSetConfig (cfg : project.DeploymentConfig)
| CallDeploy (o : project.DeployOptions) (r : option error)
| CallDeployFunc (r : option error)
| CallDown (r : option error).

(** A call either returns or panics (an index out of range, a nil pointer). *)
Inductive outcome (A : Type) : Type :=
| Returned (a : A)
| Panicked (why : string).
Arguments Returned {A} a.
Arguments Panicked {A} why.

Record run (W A : Type) : Type := Ran {
  value : outcome A;
  final : W;
  trace : list event
}.
Arguments Ran {W A} value final trace.

(** Computations over a world [W] that leave a trace. *)
Definition M (W A : Type) : Type := W -> run W A.

Definition ret {W A} (a : A) : M W A := fun w => Ran (Returned a) w [].

Definition bind {W A B} (m : M W A) (k : A -> M W B) : M W B := fun w =>
  match m w with
  | Ran (Returned a) w1 t1 =>
      match k a w1 with
      | Ran v w2 t2 => Ran v w2 (t1 ++ t2)
      end
  | Ran (Panicked why) w1 t1 => Ran (Panicked why) w1 t1
  end.

Definition emit {W} (e : event) : M W unit := fun w => Ran (Returned tt) w [e].

Definition panic {W A} (why : string) : M W A := fun w => Ran (Panicked why) w [].

(** [defer d; body]: [d] runs when [body] returns and when it panics. *)
Definition defer {W A} (d : M W unit) (body : M W A) : M W A := fun w =>
  match body w with
  | Ran v w1 t1 =>
      match d w1 with
      | Ran _ w2 t2 => Ran v w2 (t1 ++ t2)
      end
  end.

Declare Scope go_scope.
Delimit Scope go_scope with go.
Notation "x <- m ;; k" := (bind m (fun x => k))
  (at level 61, m at next level, right associativity) : go_scope.
Notation "m ;; k" := (bind m (fun _ => k))
  (at level 61, right associativity) : go_scope.
Local Open Scope go_scope.

(** The status codes a trace reports to the client, in order. *)
Definition status_of (e : event) : option Z :=
  match e with
  | HttpError _ s | WriteHeader s | LogWriteErr _ s | LogWriteSuccess _ s => Some s
  | _ => None
  end.

Fixpoint statuses (tr : list event) : list Z :=
  match tr with
  | [] => []
  | e :: rest =>
      match status_of e with
      | Some s => s :: statuses rest
      | None => statuses rest
      end
  end.

(** ** The collaborators *)

(** The Docker client ([docker.Client]). *)
Record DockerClient (World : Type) : Type := {
  cli_ContainerList : World -> World * result (list types.Container);
  cli_ContainerStop : World -> string -> Z -> World * option error;
  cli_ContainersPrune : World -> World * option error;
  cli_ContainerLogs :
    World -> string -> types.ContainerLogsOptions -> World * result string
}.

(** The deployment object ([project.Deployment]).  [GetStatus] returns a
    pointer, [None] is nil; both handlers drop its error.  [Deploy] returns
    the function that carries the deployment out. *)
Record Deployment (World : Type) : Type := {
  dep_GetStatus : World -> World * option common.DeploymentStatus;
  dep_Initialize : World -> project.DeploymentConfig -> World * option error;
  dep_CompareRemotes : World -> string -> World * option error;
  dep_SetConfig : World -> project.DeploymentConfig -> World;
  dep_Deploy :
    World -> project.DeployOptions ->
    World * result (World -> World * option error);
  dep_Down : World -> World * option error
}.

(** ** part_000: container helpers *)

Module containers.

(** [LogOptions]: part_000 declares Container and Stream; the composite
    literal of logHandler (logs.go, lines 73-77) also sets Entries. *)
Record LogOptions : Type := {
  Container : string;
  Stream : bool;
  Entries : Z
}.

Definition daemonName : string := "/inertia-daemon".

Definition stopTimeout : Z := 10 * time.Second.

Section WithClient.

Context {World : Type} (cli : DockerClient World).

Definition docker_ContainerList
  : M World (result (list types.Container)) := fun w =>
  let '(w', r) := cli_ContainerList cli w in
  Ran (Returned r) w' [CallContainerList r].

Definition docker_ContainerStop (id : string) (timeout : Z)
  : M World (option error) := fun w =>
  let '(w', r) := cli_ContainerStop cli w id timeout in
  Ran (Returned r) w' [CallContainerStop id timeout r].

Definition docker_ContainersPrune : M World (option error) := fun w =>
  let '(w', r) := cli_ContainersPrune cli w in
  Ran (Returned r) w' [CallContainersPrune r].

Definition docker_ContainerLogs
  (container : string) (o : types.ContainerLogsOptions)
  : M World (result string) := fun w =>
  let '(w', r) := cli_ContainerLogs cli w container o in
  Ran (Returned r) w' [CallContainerLogs container o r].

(** [ContainerLogs]: the query names the container and whether to follow;
    every option the literal leaves out keeps its zero value. *)
Definition ContainerLogs (opts : LogOptions) : M World (result string) :=
  docker_ContainerLogs (Container opts)
    {| types.ShowStdout := true;
       types.ShowStderr := true;
       types.Since := "";
       types.Timestamps := true;
       types.Follow := Stream opts;
       types.Tail := "";
       types.Details := false |}.

(** [getActiveContainers]. *)
Definition getActiveContainers : M World (result (list types.Container)) :=
  r <- docker_ContainerList ;;
  match r with
  | Err err => ret (Err err)
  | Ok containers =>
      if (List.length containers <=? 1)%nat then ret (Err ErrNoContainers)
      else ret (Ok containers)
  end.

(** [container.Names[0]]: indexing an empty slice panics. *)
Definition Names0 (container : types.Container) : M World string :=
  match types.Names container with
  | name :: _ => ret name
  | [] => panic "index out of range"
  end.

(** The loop of [stopActiveContainers]; [Some err] is its early return. *)
Fixpoint stopEach (containers : list types.Container)
  : M World (option error) :=
  match containers with
  | [] => ret None
  | container :: rest =>
      name <- Names0 container ;;
      if negb (String.eqb name daemonName) then
        emit (Fprintln ("Stopping " ++ name ++ "...")) ;;
        err <- docker_ContainerStop (types.ID container) stopTimeout ;;
        match err with
        | Some e => ret (Some e)
        | None => stopEach rest
        end
      else stopEach rest
  end.

(** [stopActiveContainers]. *)
Definition stopActiveContainers : M World (option error) :=
  emit (Fprintln "Shutting down active containers...") ;;
  r <- docker_ContainerList ;;
  match r with
  | Err err => ret (Some err)
  | Ok containers =>
      stopped <- stopEach containers ;;
      match stopped with
      | Some err => ret (Some err)
      | None => docker_ContainersPrune
      end
  end.

End WithClient.
End containers.

(** ** The daemon's server: downHandler and logHandler *)

Module daemon.

Definition msgNoDeployment : string :=
  "No deployment is currently active on this remote - try running 'inertia [remote] up'".

(** The server: its Docker client, its deployment, the websocket upgrader
    and the socket writer of the logger. *)
Record Server (World : Type) : Type := {
  docker : DockerClient World;
  deployment : Deployment World;
  websocket_Upgrade : World -> Request -> World * option error;
  logger_GetSocketWriter : World -> World * option error
}.

Section WithServer.

Context {World : Type} (s : Server World).
(** The query keys of package api. *)
Variables (api_Container api_Stream api_Entries : string).

Definition GetStatus : M World (option common.DeploymentStatus) := fun w =>
  let '(w', r) := dep_GetStatus (deployment s) w in
  Ran (Returned r) w' [CallGetStatus r].

Definition Down : M World (option error) := fun w =>
  let '(w', r) := dep_Down (deployment s) w in
  Ran (Returned r) w' [CallDown r].

Definition Upgrade (r : Request) : M World (option error) := fun w =>
  let '(w', e) := websocket_Upgrade s w r in
  Ran (Returned e) w' [CallUpgrade e].

Definition GetSocketWriter : M World (option error) := fun w =>
  let '(w', e) := logger_GetSocketWriter s w in
  Ran (Returned e) w' [CallGetSocketWriter e].

(** [downHandler] (part_001). *)
Definition downHandler (r : Request) : M World unit :=
  status <- GetStatus ;;
  match status with
  | None => panic "nil pointer dereference"
  | Some status =>
      if (List.length (common.Containers status) =? 0)%nat then
        emit (HttpError (Text msgNoDeployment) http.StatusPreconditionFailed)
      else
        emit (NewLogger {| log.Stdout := true; log.Socket := false;
                           log.HTTPWriter := true; log.HTTPStream := false |}) ;;
        defer (emit LogClose)
          (err <- Down ;;
           match err with
           | Some ErrNoContainers =>
               emit (LogWriteErr (ErrorText ErrNoContainers)
                       http.StatusPreconditionFailed)
           | Some err =>
               emit (LogWriteErr (ErrorText err) http.StatusInternalServerError)
           | None =>
               emit (LogWriteSuccess "Project shut down." http.StatusOK)
           end)
  end.

(** The stream flag of a logs request: lines 26-37 of logs.go. *)
Definition parseStream (streamParam : string) : result bool :=
  if negb (String.eqb streamParam "") then strconv.ParseBool streamParam
  else Ok false.

(** The number of entries of a logs request: lines 40-50 of logs.go.
    [Err] is the 400 answer. *)
Definition parseEntries (entriesParam : string) : result Z :=
  match (if negb (String.eqb entriesParam "")
         then strconv.Atoi entriesParam else Ok 0) with
  | Err err => Err err
  | Ok entries => Ok (if entries =? 0 then 500 else entries)
  end.

(** Lines 54-71: the logger, over a socket when streaming.  [false] is the
    early return after a failed upgrade. *)
Definition openLogger (r : Request) (stream : bool) : M World bool :=
  if stream then
    err <- Upgrade r ;;
    match err with
    | Some err =>
        emit (HttpError (ErrorText err) http.StatusInternalServerError) ;;
        ret false
    | None =>
        emit (NewLogger {| log.Stdout := true; log.Socket := true;
                           log.HTTPWriter := true; log.HTTPStream := false |}) ;;
        ret true
    end
  else
    emit (NewLogger {| log.Stdout := true; log.Socket := false;
                       log.HTTPWriter := true; log.HTTPStream := false |}) ;;
    ret true.

(** Lines 88-103: what is done with the fetched logs. *)
Definition serveLogs (stream : bool) (logs : string) : M World unit :=
  defer (emit LogsClose)
    (if stream then
       err <- GetSocketWriter ;;
       match err with
       | Some err =>
           emit (LogWriteErr (ErrorText err) http.StatusInternalServerError)
       | None => ret tt
       end ;;
       emit FlushRoutine ;;
       emit CloseStop ;;
       emit LogClose
     else
       emit (SetHeader "Content-Type" "text/html") ;;
       emit (WriteHeader http.StatusOK) ;;
       emit (WriteBody logs)).

(** [logHandler] (logs.go). *)
Definition logHandler (r : Request) : M World unit :=
  let params := Query r in
  let container := url.Get params api_Container in
  let streamParam := url.Get params api_Stream in
  match parseStream streamParam with
  | Err err =>
      emit (Println (ErrorText err)) ;;
      emit (HttpError (ErrorText err) http.StatusBadRequest)
  | Ok stream =>
      let entriesParam := url.Get params api_Entries in
      match parseEntries entriesParam with
      | Err _ =>
          emit (HttpError (Text "invalid number of entries")
                  http.StatusBadRequest)
      | Ok entries =>
          opened <- openLogger r stream ;;
          if opened then
            logs <- containers.ContainerLogs (docker s)
                      {| containers.Container := container;
                         containers.Stream := stream;
                         containers.Entries := entries |} ;;
            match logs with
            | Err err =>
                if IsErrNotFound err then
                  emit (LogWriteErr (ErrorText err) http.StatusNotFound)
                else
                  emit (LogWriteErr (ErrorText err)
                          http.StatusInternalServerError)
            | Ok logs => serveLogs stream logs
            end
          else ret tt
      end
  end.

End WithServer.
End daemon.

(** ** The daemon's main package: upHandler *)

Module inertiad.

(** The process: the package-level webhook secret and the world the
    collaborators act on. *)
Record Process (World : Type) : Type := {
  webhookSecret : string;
  world : World
}.

(** What up.go takes from other packages. *)
Record Imports (World : Type) : Type := {
  json_Unmarshal : string -> result common.UpRequest;
  path_Join : string -> string -> string;
  common_ReadProjectConfig :
    World -> string -> World * result common.ProjectConfig;
  common_Dereference : option string -> string;
  containers_NewDockerClient : World -> World * option error;
  crypto_DaemonGithubKeyLocation : string;
  conf_ProjectDirectory : string;
  conf_DataDirectory : string;
  deployment : Deployment World
}.

Section WithImports.

Context {World : Type} (env : Imports World).

Definition lift {A} (f : World -> World * A) (ev : A -> event)
  : M (Process World) A := fun p =>
  let '(w', a) := f (world p) in
  Ran (Returned a) {| webhookSecret := webhookSecret p; world := w' |} [ev a].

Definition setWebhookSecret (secret : string) : M (Process World) unit :=
  fun p =>
  Ran (Returned tt) {| webhookSecret := secret; world := world p |}
    [SetWebhookSecret secret].

Definition error_of {A} (r : result A) : option error :=
  match r with Ok _ => None | Err e => Some e end.

Definition ReadProjectConfig (path : string)
  : M (Process World) (result common.ProjectConfig) :=
  lift (fun w => common_ReadProjectConfig env w path)
       (fun r => CallReadProjectConfig path (error_of r)).

Definition NewDockerClient : M (Process World) (option error) :=
  lift (containers_NewDockerClient env) CallNewDockerClient.

Definition GetStatus : M (Process World) (option common.DeploymentStatus) :=
  lift (dep_GetStatus (deployment env)) CallGetStatus.

Definition Initialize (cfg : project.DeploymentConfig)
  : M (Process World) (option error) :=
  lift (fun w => dep_Initialize (deployment env) w cfg) (CallInitialize cfg).

Definition CompareRemotes (remote : string) : M (Process World) (option error) :=
  lift (fun w => dep_CompareRemotes (deployment env) w remote)
       (CallCompareRemotes remote).

Definition SetConfig (cfg : project.DeploymentConfig) : M (Process World) unit :=
  lift (fun w => (dep_SetConfig (deployment env) w cfg, tt))
       (fun _ => CallSetConfig cfg).

Definition Deploy (o : project.DeployOptions)
  : M (Process World) (result (World -> World * option error)) :=
  lift (fun w => dep_Deploy (deployment env) w o)
       (fun r => CallDeploy o (error_of r)).

Definition call (deploy : World -> World * option error)
  : M (Process World) (option error) :=
  lift deploy CallDeployFunc.

(** Lines 56-78: clone when no deployment exists.  [None] is the early
    return, [Some skipUpdate] goes on. *)
Definition initializeIfNeeded
  (upReq : common.UpRequest) (projectConfig : common.ProjectConfig)
  : M (Process World) (option bool) :=
  status <- GetStatus ;;
  match status with
  | None => panic "nil pointer dereference"
  | Some status =>
      if String.eqb (common.CommitHash status) "" then
        emit (LogPrintln "No deployment detected") ;;
        err <- Initialize
          {| project.ProjectName :=
               common_Dereference env (common.Project projectConfig);
             project.BuildType :=
               common_Dereference env
                 (common.Type_ (common.Build projectConfig));
             project.BuildFilePath :=
               common_Dereference env
                 (common.ConfigPath (common.Build projectConfig));
             project.RemoteURL :=
               common_Dereference env
                 (common.RemoteURL (common.Repository projectConfig));
             project.Branch := common.Branch (common.GitOptions upReq);
             project.PemFilePath := crypto_DaemonGithubKeyLocation env;
             project.DatabasePath :=
               path_Join env (conf_DataDirectory env) "project.db" |} ;;
        match err with
        | Some err =>
            emit (LogWriteErr (ErrorText err) http.StatusPreconditionFailed) ;;
            ret None
        | None => ret (Some true)
        end
      else ret (Some false)
  end.

(** Lines 80-106: compare the remotes, set the branch, deploy. *)
Definition compareAndDeploy
  (upReq : common.UpRequest) (projectConfig : common.ProjectConfig)
  (skipUpdate : bool) : M (Process World) unit :=
  err <- CompareRemotes
           (common_Dereference env
              (common.RemoteURL (common.Repository projectConfig))) ;;
  match err with
  | Some err =>
      emit (LogWriteErr (ErrorText err) http.StatusPreconditionFailed)
  | None =>
      SetConfig
        {| project.ProjectName := ""; project.BuildType := "";
           project.BuildFilePath := ""; project.RemoteURL := "";
           project.Branch := common.Branch (common.GitOptions upReq);
           project.PemFilePath := ""; project.DatabasePath := "" |} ;;
      deploy <- Deploy {| project.SkipUpdate := skipUpdate |} ;;
      match deploy with
      | Err err =>
          emit (LogWriteErr (ErrorText err) http.StatusInternalServerError)
      | Ok deploy =>
          err <- call deploy ;;
          match err with
          | Some err =>
              emit (LogWriteErr (ErrorText err)
                      http.StatusInternalServerError)
          | None =>
              emit (LogWriteSuccess "Project startup initiated!"
                      http.StatusCreated)
          end
      end
  end.

(** Lines 43-106: everything after the logger is set up. *)
Definition bringUp (upReq : common.UpRequest) : M (Process World) unit :=
  projectConfig <- ReadProjectConfig
    (path_Join env (conf_ProjectDirectory env) "inertia.toml") ;;
  match projectConfig with
  | Err _ =>
      emit (LogWriteErr (Text "Failed to read project configuration")
              http.StatusPreconditionFailed)
  | Ok projectConfig =>
      err <- NewDockerClient ;;
      match err with
      | Some err =>
          emit (LogWriteErr (ErrorText err) http.StatusInternalServerError)
      | None =>
          defer (emit CliClose)
            (skip <- initializeIfNeeded upReq projectConfig ;;
             match skip with
             | None => ret tt
             | Some skipUpdate =>
                 compareAndDeploy upReq projectConfig skipUpdate
             end)
      end
  end.

(** [upHandler] (up.go). *)
Definition upHandler (r : Request) : M (Process World) unit :=
  match Body r with
  | Err err => emit (HttpError (ErrorText err) http.StatusLengthRequired)
  | Ok body =>
      defer (emit BodyClose)
        match json_Unmarshal env body with
        | Err err => emit (HttpError (ErrorText err) http.StatusBadRequest)
        | Ok upReq =>
            setWebhookSecret (common.WebHookSecret upReq) ;;
            emit (NewLogger {| log.Stdout := true; log.Socket := false;
                               log.HTTPWriter := true;
                               log.HTTPStream := common.Stream upReq |}) ;;
            defer (emit LogClose) (bringUp upReq)
        end
  end.

End WithImports.
End inertiad.

(** ** Reading a trace *)

(** The containers teardown is meant for: those whose first name is not the
    daemon's. *)
Definition isProject (c : types.Container) : bool :=
  match types.Names c with
  | name :: _ => negb (String.eqb name containers.daemonName)
  | [] => false
  end.

Definition named (c : types.Container) : Prop := types.Names c <> [].

(** The stop a container gets: its ID and the grace timeout. *)
Definition stopOf (c : types.Container) : string * Z :=
  (types.ID c, 10 * time.Second).

(** The stops a trace issued, in order. *)
Fixpoint stopsIssued (tr : list event) : list (string * Z) :=
  match tr with
  | [] => []
  | CallContainerStop id timeout _ :: rest => (id, timeout) :: stopsIssued rest
  | _ :: rest => stopsIssued rest
  end.

Definition stopFailed (e : event) : bool :=
  match e with CallContainerStop _ _ (Some _) => true | _ => false end.

Definition isPrune (e : event) : bool :=
  match e with CallContainersPrune _ => true | _ => false end.

Definition isInitialize (e : event) : bool :=
  match e with CallInitialize _ _ => true | _ => false end.

Definition isDeploy (e : event) : bool :=
  match e with CallDeploy _ _ | CallDeployFunc _ => true | _ => false end.

(** The world the Docker client is left in by the client calls of a trace. *)
Fixpoint replay {World} (cli : DockerClient World) (w : World)
  (tr : list event) : World :=
  match tr with
  | [] => w
  | CallContainerList _ :: rest =>
      replay cli (fst (cli_ContainerList cli w)) rest
  | CallContainerStop id timeout _ :: rest =>
      replay cli (fst (cli_ContainerStop cli w id timeout)) rest
  | CallContainersPrune _ :: rest =>
      replay cli (fst (cli_ContainersPrune cli w)) rest
  | CallContainerLogs container o _ :: rest =>
      replay cli (fst (cli_ContainerLogs cli w container o)) rest
  | _ :: rest => replay cli w rest
  end.

(** What the loop of [stopActiveContainers] leaves behind, by the way it
    ends: every container stopped, a stop that failed, or a container
    without a name. *)
Definition stopEach_post {World} (cli : DockerClient World)
  (cs : list types.Container) (w : World) (r : run World (option error))
  : Prop :=
  final r = replay cli w (trace r) /\
  existsb isPrune (trace r) = false /\
  match value r with
  | Returned None =>
      Forall named cs /\
      stopsIssued (trace r) = map stopOf (filter isProject cs) /\
      existsb stopFailed (trace r) = false
  | Returned (Some e) =>
      exists pre c post tr0,
        cs = (pre ++ c :: post)%list /\ isProject c = true /\
        Forall named pre /\
        trace r =
          (tr0 ++ [CallContainerStop (types.ID c) (10 * time.Second) (Some e)])%list /\
        stopsIssued tr0 = map stopOf (filter isProject pre) /\
        existsb stopFailed tr0 = false
  | Panicked _ =>
      exists pre c post,
        cs = (pre ++ c :: post)%list /\ types.Names c = [] /\
        Forall named pre /\
        stopsIssued (trace r) = map stopOf (filter isProject pre) /\
        existsb stopFailed (trace r) = false
  end.



(** ** A small runtime to run the handlers on *)

Module Sim.

(** A host: the running containers, the stopped containers that were not
    removed yet, the images no container uses, the buffered log lines of
    each container, the calls that fail, and the stops carried out. *)
Record World : Type := {
  active : list types.Container;
  exited : list string;
  images : list string;
  logs : list (string * list string);
  stopErrors : list (string * error);
  listError : option error;
  pruneError : option error;
  stopped : list string
}.

Fixpoint assoc {A} (key : string) (l : list (string * A)) : option A :=
  match l with
  | [] => None
  | (k, a) :: rest => if String.eqb k key then Some a else assoc key rest
  end.

Definition ContainerList (w : World) : World * result (list types.Container) :=
  match listError w with
  | Some e => (w, Err e)
  | None => (w, Ok (active w))
  end.

Definition ContainerStop (w : World) (id : string) (timeout : Z)
  : World * option error :=
  match assoc id (stopErrors w) with
  | Some e => (w, Some e)
  | None =>
      ({| active :=
            filter (fun c => negb (String.eqb (types.ID c) id)) (active w);
          exited := exited w ++ [id];
          images := images w;
          logs := logs w;
          stopErrors := stopErrors w;
          listError := listError w;
          pruneError := pruneError w;
          stopped := stopped w ++ [id] |}, None)
  end.

(** The runtime's prune of containers: it removes the stopped containers
    and leaves the images alone. *)
Definition ContainersPrune (w : World) : World * option error :=
  match pruneError w with
  | Some e => (w, Some e)
  | None =>
      ({| active := active w; exited := []; images := images w;
          logs := logs w; stopErrors := stopErrors w;
          listError := listError w; pruneError := pruneError w;
          stopped := stopped w |}, None)
  end.

(** The runtime's tail option: a number of lines counted from the end; an
    empty, malformed or negative value means every line. *)
Definition tailLines (tail : string) (lines : list string) : list string :=
  match strconv.Atoi tail with
  | Ok n =>
      if n <? 0 then lines
      else skipn (List.length lines - Z.to_nat n) lines
  | Err _ => lines
  end.

Definition render (lines : list string) : string :=
  fold_right (fun l acc => l ++ String "010"%char acc) "" lines.

Definition ContainerLogs (w : World) (container : string)
  (o : types.ContainerLogsOptions) : World * result string :=
  match assoc container (logs w) with
  | None => (w, Err (NotFound ("No such container: " ++ container)))
  | Some lines => (w, Ok (render (tailLines (types.Tail o) lines)))
  end.

Definition cli : DockerClient World := {|
  cli_ContainerList := ContainerList;
  cli_ContainerStop := ContainerStop;
  cli_ContainersPrune := ContainersPrune;
  cli_ContainerLogs := ContainerLogs
|}.

Definition container (id name : string) : types.Container :=
  {| types.ID := id; types.Names := [name] |}.

Definition daemonContainer : types.Container :=
  container "d0" "/inertia-daemon".

(** A host running the containers [cs], with one image left unused. *)
Definition host (cs : list types.Container)
  (stopErrs : list (string * error)) (pruneErr : option error) : World := {|
  active := cs;
  exited := [];
  images := ["app:old"];
  logs := [];
  stopErrors := stopErrs;
  listError := None;
  pruneError := pruneErr;
  stopped := []
|}.

Definition fleet : list types.Container :=
  [container "a1" "/web"; daemonContainer; container "b2" "/db";
   container "c3" "/cache"].

(** The same host, where stopping "b2" fails. *)
Definition failingHost : World :=
  host fleet [("b2", Failure "cannot stop container: b2")] None.

(** A host whose container "app" has buffered [n] log lines. *)
Definition logHost (n : nat) : World := {|
  active := [daemonContainer; container "app" "/app"];
  exited := [];
  images := [];
  logs := [("app", repeat "line" n)];
  stopErrors := [];
  listError := None;
  pruneError := None;
  stopped := []
|}.

(** A deployment that reports [containers] as its status and answers
    [down] to Down. *)
Definition deployment (containers : list string) (down : option error)
  : Deployment World := {|
  dep_GetStatus := fun w =>
    (w, Some {| common.CommitHash := "c0ffee";
                common.Containers := containers |});
  dep_Initialize := fun w _ => (w, None);
  dep_CompareRemotes := fun w _ => (w, None);
  dep_SetConfig := fun w _ => w;
  dep_Deploy := fun w _ => (w, Ok (fun w' => (w', None)));
  dep_Down := fun w => (w, down)
|}.

Definition server (containers : list string) (down : option error)
  : daemon.Server World := {|
  daemon.docker := cli;
  daemon.deployment := deployment containers down;
  daemon.websocket_Upgrade := fun w _ => (w, None);
  daemon.logger_GetSocketWriter := fun w => (w, None)
|}.

(** A logs request with the given query. *)
Definition logsRequest (query : url.Values) : Request :=
  {| Query := query; Body := Ok "" |}.

(** [logHandler] of that server, the query keys being "container",
    "stream" and "entries". *)
Definition logHandler (r : Request) : M World unit :=
  daemon.logHandler (server ["/app"] None) "container" "stream" "entries" r.

End Sim.

(** ** A small deployment to run upHandler on *)

Module SimUp.

(** The host: the commit deployed (empty when none), the remote of the
    cloned repository, and how Initialize answers. *)
Record World : Type := {
  commit : string;
  remote : string;
  initError : option error
}.

Definition mismatch : error :=
  Failure "The given remote URL does not match that of the repository".

Definition deployment : Deployment World := {|
  dep_GetStatus := fun w =>
    (w, Some {| common.CommitHash := commit w; common.Containers := [] |});
  dep_Initialize := fun w cfg =>
    match initError w with
    | Some e => (w, Some e)
    | None =>
        ({| commit := "c0ffee"; remote := project.RemoteURL cfg;
            initError := None |}, None)
    end;
  dep_CompareRemotes := fun w url =>
    (w, if String.eqb url (remote w) then None else Some mismatch);
  dep_SetConfig := fun w _ => w;
  dep_Deploy := fun w _ => (w, Ok (fun w' => (w', None)));
  dep_Down := fun w => (w, None)
|}.

(** The imports: a decoder that takes the body for the secret, and a
    project configuration naming the remote [configured]. *)
Definition env (configured : string) : inertiad.Imports World := {|
  inertiad.json_Unmarshal := fun body =>
    if String.eqb body "" then Err (SyntaxError "Unmarshal" body)
    else Ok {| common.Stream := false;
               common.GitOptions := {| common.Branch := "master" |};
               common.WebHookSecret := body |};
  inertiad.path_Join := fun a b => (a ++ "/" ++ b)%string;
  inertiad.common_ReadProjectConfig := fun w _ =>
    (w, Ok {| common.Project := Some "demo";
              common.Build := {| common.Type_ := Some "dockerfile";
                                 common.ConfigPath := None |};
              common.Repository := {| common.RemoteURL := Some configured |} |});
  inertiad.common_Dereference := fun o =>
    match o with Some s => s | None => "" end;
  inertiad.containers_NewDockerClient := fun w => (w, None);
  inertiad.crypto_DaemonGithubKeyLocation := "/app/host/.ssh/id_rsa";
  inertiad.conf_ProjectDirectory := "/app/host/project";
  inertiad.conf_DataDirectory := "/app/host/data";
  inertiad.deployment := deployment
|}.

Definition upRequest : Request := {| Query := []; Body := Ok "s3cret" |}.

Definition process (w : World) : inertiad.Process World :=
  {| inertiad.webhookSecret := "old"; inertiad.world := w |}.

(** No deployment yet. *)
Definition fresh : World :=
  {| commit := ""; remote := ""; initError := None |}.

(** No deployment yet, and the clone fails. *)
Definition unreachable : World :=
  {| commit := ""; remote := "";
     initError := Some (Failure "repository not found") |}.

(** A deployment of another repository. *)
Definition deployed : World :=
  {| commit := "c0ffee"; remote := "git@github.com:a/one.git";
     initError := None |}.

End SimUp.

(** ** Reading a trace: teardown *)

(** One turn of the loop of [stopActiveContainers] that stops a container:
    the line that announces it, then the stop. *)
Definition stopStep (name id : string) (res : option error) : list event :=
  [Fprintln ("Stopping " ++ name ++ "...");
   CallContainerStop id (10 * time.Second) res].

Definition stopSteps (steps : list (types.Container * string * option error))
  : list event :=
  flat_map (fun s => stopStep (snd (fst s)) (types.ID (fst (fst s))) (snd s))
    steps.

(** The error a call of the Docker client came back with. *)
Definition callError (e : event) : option error :=
  match e with
  | CallContainerList (Err e) => Some e
  | CallContainerStop _ _ r => r
  | CallContainersPrune r => r
  | CallContainerLogs _ _ (Err e) => Some e
  | _ => None
  end.


(** ** Reading a trace: the handlers *)

(** The events that reach the runtime, the socket or the logger: all but
    the builtin println and http.Error. *)
Definition isPlainAnswer (e : event) : bool :=
  match e with
  | Println _ | HttpError _ _ => true
  | _ => false
  end.


(** The status downHandler gives to what Down returned. *)
Definition downStatus (res : option error) : Z :=
  match res with
  | None => http.StatusOK
  | Some ErrNoContainers => http.StatusPreconditionFailed
  | Some _ => http.StatusInternalServerError
  end.


(** The releases of upHandler: the Docker client, the logger, the body. *)
Definition isClose (e : event) : bool :=
  match e with
  | CliClose | LogClose | BodyClose => true
  | _ => false
  end.

Definition isClientCreated (e : event) : bool :=
  match e with CallNewDockerClient None => true | _ => false end.

Definition isNewLogger (e : event) : bool :=
  match e with NewLogger _ => true | _ => false end.

(** The calls on the deployment and on the Docker client factory. *)
Definition isDeploymentCall (e : event) : bool :=
  match e with
  | CallNewDockerClient _ | CallGetStatus _ | CallInitialize _ _
  | CallCompareRemotes _ _ | CallSetConfig _ | CallDeploy _ _
  | CallDeployFunc _ => true
  | _ => false
  end.

(** A deployment configuration that sets the branch and nothing else. *)
Definition branchOnly (branch : string) : project.DeploymentConfig :=
  {| project.ProjectName := ""; project.BuildType := "";
     project.BuildFilePath := ""; project.RemoteURL := "";
     project.Branch := branch; project.PemFilePath := "";
     project.DatabasePath := "" |}.


(** A host where a listed container has no name. *)
Definition namelessHost : Sim.World :=
  Sim.host [Sim.container "a1" "/web";
            {| types.ID := "x9"; types.Names := [] |};
            Sim.container "b2" "/db"] [] None.



(** ** part_002: the EC2 provisioner *)

(** aws-sdk-go/service/ec2: the shapes the provisioner builds and reads.  A
    pointer field is an option, [None] being nil.  A slice of pointers to
    shapes is a list of shapes, and an answer that comes without an error is
    a shape: the SDK hands out no nil element and no nil answer. *)
Module ec2.

Module Image.
Record t : Type := {
  Name : option string;
  ImageId : option string;
  Description : option string;
  CreationDate : option string
}.
End Image.

Module Filter.
Record t : Type := {
  Name : option string;
  Values : list (option string)
}.
End Filter.

Module DescribeImagesInput.
Record t : Type := {
  Owners : list (option string);
  Filters : list Filter.t
}.
End DescribeImagesInput.

Module IpRange.
Record t : Type := {
  CidrIp : option string;
  Description : option string
}.
End IpRange.

Module Ipv6Range.
Record t : Type := {
  CidrIpv6 : option string;
  Description : option string
}.
End Ipv6Range.

Module IpPermission.
Record t : Type := {
  FromPort : option Z;
  ToPort : option Z;
  IpProtocol : option string;
  IpRanges : list IpRange.t;
  Ipv6Ranges : list Ipv6Range.t
}.
End IpPermission.

Module AuthorizeSecurityGroupIngressInput.
Record t : Type := {
  GroupId : option string;
  IpPermissions : list IpPermission.t
}.
End AuthorizeSecurityGroupIngressInput.

Module CreateKeyPairInput.
Record t : Type := {
  KeyName : option string
}.
End CreateKeyPairInput.

Module CreateKeyPairOutput.
Record t : Type := {
  KeyName : option string;
  KeyMaterial : option string
}.
End CreateKeyPairOutput.

Module CreateSecurityGroupInput.
Record t : Type := {
  GroupName : option string;
  Description : option string
}.
End CreateSecurityGroupInput.

Module CreateSecurityGroupOutput.
Record t : Type := {
  GroupId : option string
}.
End CreateSecurityGroupOutput.

Module RunInstancesInput.
Record t : Type := {
  ImageId : option string;
  InstanceType : option string;
  MinCount : option Z;
  MaxCount : option Z;
  KeyName : option string;
  SecurityGroupIds : list (option string)
}.
End RunInstancesInput.

Module InstanceState.
Record t : Type := {
  Code : option Z;
  Name : option string
}.
End InstanceState.

Module Instance.
Record t : Type := {
  InstanceId : option string;
  PublicDnsName : option string;
  State : option InstanceState.t
}.
End Instance.

Module Reservation.
Record t : Type := {
  Instances : list Instance.t
}.
End Reservation.

Module DescribeInstancesInput.
Record t : Type := {
  InstanceIds : list (option string)
}.
End DescribeInstancesInput.

Module DescribeInstancesOutput.
Record t : Type := {
  Reservations : list Reservation.t
}.
End DescribeInstancesOutput.

Module Tag.
Record t : Type := {
  Key : option string;
  Value : option string
}.
End Tag.

Module CreateTagsInput.
Record t : Type := {
  Resources : list (option string);
  Tags : list Tag.t
}.
End CreateTagsInput.

End ec2.

(** inertia/cfg: the remote that a provisioning hands back. *)
Module cfg.

Record DaemonConfig : Type := {
  Port : string;
  WebHookSecret : string
}.

Record RemoteVPS : Type := {
  Name : string;
  IP : string;
  User : string;
  PEM : string;
  SSHPort : string;
  Daemon : option DaemonConfig
}.

End cfg.

Module provision.

(** Code returned by AWS when EC2 instance is successfully created. *)
Definition codeEC2InstanceStarted : Z := 16.

(** [EC2CreateInstanceOptions]. *)
Record EC2CreateInstanceOptions : Type := {
  Name : string;
  ProjectName : string;
  Ports : list Z;
  DaemonPort : Z;
  ImageID : string;
  InstanceType : string;
  Region : string
}.

(** What the provisioner does to the outside, with the answer it got.
    [Fprintln] and [Fprintf] write on the writer of the provisioner,
    [Printf] and [PrintlnWriter] on standard output; the latter is
    [fmt.Println] handed the writer and a line. *)
Inductive call : Type :=
| WithRegion (region : string)
| Now (nanoseconds : Z)
| Sleep (duration : Z)
| Getenv (key value : string)
| Printf (text : string)
| PrintlnWriter (line : string)
| Fprintln (line : list message)
| Fprintf (text : string)
| DescribeImages (input : ec2.DescribeImagesInput.t)
    (r : result (list ec2.Image.t))
| CreateKeyPair (input : ec2.CreateKeyPairInput.t)
    (r : result ec2.CreateKeyPairOutput.t)
| SaveKey (material path : string) (r : option error)
| CreateSecurityGroup (input : ec2.CreateSecurityGroupInput.t)
    (r : result ec2.CreateSecurityGroupOutput.t)
| AuthorizeSecurityGroupIngress
    (input : ec2.AuthorizeSecurityGroupIngressInput.t) (r : option error)
| RunInstances (input : ec2.RunInstancesInput.t)
    (r : result ec2.Reservation.t)
| DescribeInstances (input : ec2.DescribeInstancesInput.t)
    (r : result ec2.DescribeInstancesOutput.t)
| CreateTags (input : ec2.CreateTagsInput.t) (r : option error)
| Dial (network address : string) (r : option error)
| ConnClose
| GenerateRandomString (r : result string).

(** A run returns, panics, or is still in one of the two waiting loops of
    [CreateInstance] when the turns it was given are used up. *)
Inductive ended (A : Type) : Type :=
| Finished (a : A)
| Crashed (why : string)
| Unfinished.
Arguments Finished {A} a.
Arguments Crashed {A} why.
Arguments Unfinished {A}.

Record ran (W A : Type) : Type := Ran {
  value : ended A;
  final : W;
  calls : list call
}.
Arguments Ran {W A} value final calls.

Definition P (W A : Type) : Type := W -> ran W A.

Definition ret {W A} (a : A) : P W A := fun w => Ran (Finished a) w [].

Definition bind {W A B} (m : P W A) (k : A -> P W B) : P W B := fun w =>
  match m w with
  | Ran (Finished a) w1 c1 =>
      match k a w1 with
      | Ran v w2 c2 => Ran v w2 (c1 ++ c2)%list
      end
  | Ran (Crashed why) w1 c1 => Ran (Crashed why) w1 c1
  | Ran Unfinished w1 c1 => Ran Unfinished w1 c1
  end.

Definition say {W} (c : call) : P W unit := fun w => Ran (Finished tt) w [c].

Definition crash {W A} (why : string) : P W A := fun w => Ran (Crashed why) w [].

Definition unfinished {W A} : P W A := fun w => Ran Unfinished w [].

(** [*p] of a pointer. *)
Definition deref {W A} (p : option A) : P W A :=
  match p with
  | Some a => ret a
  | None => crash "nil pointer dereference"
  end.

Declare Scope aws_scope.
Delimit Scope aws_scope with aws.
Notation "x <- m ;; k" := (bind m (fun x => k))
  (at level 61, m at next level, right associativity) : aws_scope.
Notation "m ;; k" := (bind m (fun _ => k))
  (at level 61, right associativity) : aws_scope.
Local Open Scope aws_scope.

(** The surroundings of the provisioner: the EC2 client, the clock, the
    environment, the network, and what it takes from other packages: the
    date parser and the random string of package common (dates read as
    instants), the key store of package local, the sort and the path join of
    the standard library (the sort is handed the comparison and may panic
    when the comparison does), and the printers of the SDK's shapes. *)
Record Client (World : Type) : Type := {
  ec2_WithRegion : World -> string -> World;
  ec2_DescribeImages :
    World -> ec2.DescribeImagesInput.t -> World * result (list ec2.Image.t);
  ec2_CreateKeyPair :
    World -> ec2.CreateKeyPairInput.t ->
    World * result ec2.CreateKeyPairOutput.t;
  ec2_CreateSecurityGroup :
    World -> ec2.CreateSecurityGroupInput.t ->
    World * result ec2.CreateSecurityGroupOutput.t;
  ec2_AuthorizeSecurityGroupIngress :
    World -> ec2.AuthorizeSecurityGroupIngressInput.t -> World * option error;
  ec2_RunInstances :
    World -> ec2.RunInstancesInput.t -> World * result ec2.Reservation.t;
  ec2_DescribeInstances :
    World -> ec2.DescribeInstancesInput.t ->
    World * result ec2.DescribeInstancesOutput.t;
  ec2_CreateTags : World -> ec2.CreateTagsInput.t -> World * option error;
  time_Now : World -> World * Z;
  time_Sleep : World -> Z -> World;
  os_Getenv : World -> string -> string;
  net_Dial : World -> string -> string -> World * option error;
  local_SaveKey : World -> string -> string -> World * option error;
  common_GenerateRandomString : World -> World * result string;
  common_ParseDate : string -> option Z;
  sort_Slice :
    (ec2.Image.t -> ec2.Image.t -> outcome bool) -> list ec2.Image.t ->
    outcome (list ec2.Image.t);
  filepath_Join : list string -> string;
  Reservation_String : ec2.Reservation.t -> string;
  Instance_String : ec2.Instance.t -> string;
  InstanceState_String : ec2.InstanceState.t -> string
}.

(** [%d] of an int64, and the line feed. *)
Definition itoa (n : Z) : string := NilZero.string_of_int (Z.to_int n).

Definition nl : string := String "010"%char "".

(** The rule that opens one port to every address, over tcp. *)
Definition openPort (port : Z) (description : option string)
  : ec2.IpPermission.t :=
  {| ec2.IpPermission.FromPort := Some port;
     ec2.IpPermission.ToPort := Some port;
     ec2.IpPermission.IpProtocol := Some "tcp";
     ec2.IpPermission.IpRanges :=
       [{| ec2.IpRange.CidrIp := Some "0.0.0.0/0";
           ec2.IpRange.Description := description |}];
     ec2.IpPermission.Ipv6Ranges :=
       [{| ec2.Ipv6Range.CidrIpv6 := Some "::/0";
           ec2.Ipv6Range.Description := description |}] |}.

(** The rules [exposePorts] sends: the loop appends one rule a port. *)
Definition portRules (daemonPort : Z) (ports : list Z)
  : list ec2.IpPermission.t :=
  fold_left (fun rules port => (rules ++ [openPort port None])%list) ports
    [openPort 22 (Some "Inertia SSH port");
     openPort daemonPort (Some "Inertia daemon port")].

(** The images the listing asks for. *)
Definition imagesQuery : ec2.DescribeImagesInput.t :=
  let filter name value :=
    {| ec2.Filter.Name := Some name; ec2.Filter.Values := [Some value] |} in
  {| ec2.DescribeImagesInput.Owners := [Some "amazon"];
     ec2.DescribeImagesInput.Filters :=
       [filter "name" "amzn*";
        filter "image-type" "machine";
        filter "architecture" "x86_64";
        filter "root-device-type" "ebs";
        filter "virtualization-type" "hvm"] |}.

(** The line of an image: ["%s (%s)"] of its id and its description, both
    dereferenced. *)
Definition imageLine (image : ec2.Image.t) : outcome string :=
  match ec2.Image.ImageId image, ec2.Image.Description image with
  | Some id, Some description =>
      Returned (id ++ " (" ++ description ++ ")")
  | _, _ => Panicked "nil pointer dereference"
  end.

(** The loop of [ListImageOptions] over the sorted images. *)
Fixpoint pickImages (sorted : list ec2.Image.t) (images : list string)
  : outcome (list string) :=
  match sorted with
  | [] => Returned images
  | image :: rest =>
      if (List.length images =? 10)%nat then Returned images
      else
        match ec2.Image.Name image with
        | Some _ =>
            match imageLine image with
            | Returned line => pickImages rest (images ++ [line])%list
            | Panicked why => Panicked why
            end
        | None => pickImages rest images
        end
  end.

(** [EC2Provisioner]: the user; its writer, session and client are in the
    surroundings. *)
Record EC2Provisioner : Type := {
  user : string
}.

(** Whether a state carries the code of a started instance. *)
Definition started (s : ec2.InstanceState.t) : bool :=
  match ec2.InstanceState.Code s with
  | Some code => code =? codeEC2InstanceStarted
  | None => false
  end.

(** [result.Reservations[0].Instances[0]], when there is one. *)
Definition firstInstance (result : ec2.DescribeInstancesOutput.t)
  : option ec2.Instance.t :=
  match ec2.DescribeInstancesOutput.Reservations result with
  | [] => None
  | reservation :: _ =>
      match ec2.Reservation.Instances reservation with
      | [] => None
      | instance :: _ => Some instance
      end
  end.

Section WithClient.

Context {World : Type} (client : Client World).

Definition lift {A} (f : World -> World * A) (c : A -> call) : P World A :=
  fun w => let '(w', a) := f w in Ran (Finished a) w' [c a].

Definition pure {A} (o : outcome A) : P World A :=
  match o with
  | Returned a => ret a
  | Panicked why => crash why
  end.

Definition withRegion (region : string) : P World unit := fun w =>
  Ran (Finished tt) (ec2_WithRegion client w region) [WithRegion region].

Definition sleep (duration : Z) : P World unit := fun w =>
  Ran (Finished tt) (time_Sleep client w duration) [Sleep duration].

Definition getenv (key : string) : P World string := fun w =>
  Ran (Finished (os_Getenv client w key)) w
    [Getenv key (os_Getenv client w key)].

(** The comparison [ListImageOptions] sorts by: newer first, an image whose
    date does not parse after every one whose date does. *)
Definition newerFirst (i j : ec2.Image.t) : outcome bool :=
  match ec2.Image.CreationDate i with
  | None => Panicked "nil pointer dereference"
  | Some iDate =>
      match common_ParseDate client iDate with
      | None => Returned false
      | Some iCreated =>
          match ec2.Image.CreationDate j with
          | None => Panicked "nil pointer dereference"
          | Some jDate =>
              match common_ParseDate client jDate with
              | None => Returned true
              | Some jCreated => Returned (jCreated <? iCreated)
              end
          end
      end
  end.

(** [ListImageOptions]. *)
Definition ListImageOptions (region : string)
  : P World (result (list string)) :=
  withRegion region ;;
  output <- lift (fun w => ec2_DescribeImages client w imagesQuery)
              (DescribeImages imagesQuery) ;;
  match output with
  | Err err => ret (Err err)
  | Ok images =>
      sorted <- pure (sort_Slice client newerFirst images) ;;
      lines <- pure (pickImages sorted []) ;;
      ret (Ok lines)
  end.

(** [exposePorts]. *)
Definition exposePorts (securityGroupID : string) (daemonPort : Z)
  (ports : list Z) : P World (option error) :=
  let input :=
    {| ec2.AuthorizeSecurityGroupIngressInput.GroupId := Some securityGroupID;
       ec2.AuthorizeSecurityGroupIngressInput.IpPermissions :=
         portRules daemonPort ports |} in
  lift (fun w => ec2_AuthorizeSecurityGroupIngress client w input)
    (AuthorizeSecurityGroupIngress input).

(** The first loop of [CreateInstance]: every three seconds, ask for the
    instance until it is seen started.  [Err] is the early return. *)
Fixpoint awaitRunning (turns : nat) (instanceId : option string)
  : P World (result ec2.Instance.t) :=
  match turns with
  | O => unfinished
  | S turns =>
      sleep (3 * time.Second) ;;
      let input :=
        {| ec2.DescribeInstancesInput.InstanceIds := [instanceId] |} in
      result <- lift (fun w => ec2_DescribeInstances client w input)
                  (DescribeInstances input) ;;
      match result with
      | Err err => ret (Err err)
      | Ok result =>
          match firstInstance result with
          | None =>
              say (Fprintln [Text "No reservations found yet."]) ;;
              awaitRunning turns instanceId
          | Some instance =>
              match ec2.Instance.State instance with
              | None =>
                  say (PrintlnWriter "Status unknown.") ;;
                  awaitRunning turns instanceId
              | Some s =>
                  if started s then
                    say (Fprintln [Text "Instance is running!"]) ;;
                    ret (Ok instance)
                  else
                    say (Fprintln
                           [Text ("Instance status: " ++
                                  match ec2.InstanceState.Name s with
                                  | Some name => name
                                  | None => InstanceState_String client s
                                  end)]) ;;
                    awaitRunning turns instanceId
              end
          end
      end
  end.

(** The second loop: every three seconds, try port 22 until it answers. *)
Fixpoint awaitPort (turns : nat) (host : string) : P World unit :=
  match turns with
  | O => unfinished
  | S turns =>
      sleep (3 * time.Second) ;;
      say (Fprintln [Text "Checking ports..."]) ;;
      err <- lift (fun w => net_Dial client w "tcp" (host ++ ":22"))
               (Dial "tcp" (host ++ ":22")) ;;
      match err with
      | None =>
          say (Fprintln [Text "Connection established!"]) ;;
          say ConnClose
      | Some _ => awaitPort turns host
      end
  end.

(** Lines 259-314 of [CreateInstance]: from the started instance to the
    remote. *)
Definition finishInstance (turns : nat) (p : EC2Provisioner)
  (opts : EC2CreateInstanceOptions) (keyPath : string)
  (instance : ec2.Instance.t) : P World (result cfg.RemoteVPS) :=
  match ec2.Instance.PublicDnsName instance with
  | None =>
      ret (Err (Failure ("Unable to find public IP address for instance: "
                         ++ Instance_String client instance)))
  | Some publicDnsName =>
      let tags :=
        {| ec2.CreateTagsInput.Resources :=
             [ec2.Instance.InstanceId instance];
           ec2.CreateTagsInput.Tags :=
             [{| ec2.Tag.Key := Some "Name";
                 ec2.Tag.Value := Some (Name opts) |};
              {| ec2.Tag.Key := Some "Purpose";
                 ec2.Tag.Value := Some "Inertia Continuous Deployment" |}] |} in
      err <- lift (fun w => ec2_CreateTags client w tags) (CreateTags tags) ;;
      match err with
      | Some err => say (Fprintln [Text "Failed to set tags: "; ErrorText err])
      | None => ret tt
      end ;;
      say (Fprintln [Text "Waiting for ports to open..."]) ;;
      awaitPort turns publicDnsName ;;
      generated <- lift (common_GenerateRandomString client)
                     GenerateRandomString ;;
      webhookSecret <-
        match generated with
        | Err err =>
            say (Fprintln [ErrorText err]) ;;
            say (Fprintln [Text "Using default secret 'inertia'"]) ;;
            ret "interia"
        | Ok webhookSecret =>
            say (Fprintf ("Generated webhook secret: '" ++ webhookSecret
                          ++ "'" ++ nl)) ;;
            ret webhookSecret
        end ;;
      ret (Ok {| cfg.Name := Name opts;
                 cfg.IP := publicDnsName;
                 cfg.User := user p;
                 cfg.PEM := keyPath;
                 cfg.SSHPort := "22";
                 cfg.Daemon :=
                   Some {| cfg.Port := itoa (DaemonPort opts);
                           cfg.WebHookSecret := webhookSecret |} |})
  end.

(** Lines 174-257: the security group, its rules, the instance, and the
    wait for it. *)
Definition startInstance (turns : nat) (p : EC2Provisioner)
  (opts : EC2CreateInstanceOptions) (keyResp : ec2.CreateKeyPairOutput.t)
  (keyPath : string) : P World (result cfg.RemoteVPS) :=
  t <- lift (time_Now client) Now ;;
  let groupInput :=
    {| ec2.CreateSecurityGroupInput.GroupName :=
         Some (ProjectName opts ++ "-" ++ Name opts ++ "-" ++ itoa t);
       ec2.CreateSecurityGroupInput.Description :=
         Some ("Rules for project " ++ ProjectName opts ++ " on "
               ++ Name opts) |} in
  group <- lift (fun w => ec2_CreateSecurityGroup client w groupInput)
             (CreateSecurityGroup groupInput) ;;
  match group with
  | Err err => ret (Err err)
  | Ok group =>
      groupId <- deref (ec2.CreateSecurityGroupOutput.GroupId group) ;;
      err <- exposePorts groupId (DaemonPort opts) (Ports opts) ;;
      match err with
      | Some err => ret (Err err)
      | None =>
          let runInput :=
            {| ec2.RunInstancesInput.ImageId := Some (ImageID opts);
               ec2.RunInstancesInput.InstanceType := Some (InstanceType opts);
               ec2.RunInstancesInput.MinCount := Some 1;
               ec2.RunInstancesInput.MaxCount := Some 1;
               ec2.RunInstancesInput.KeyName :=
                 ec2.CreateKeyPairOutput.KeyName keyResp;
               ec2.RunInstancesInput.SecurityGroupIds :=
                 [ec2.CreateSecurityGroupOutput.GroupId group] |} in
          runResp <- lift (fun w => ec2_RunInstances client w runInput)
                       (RunInstances runInput) ;;
          match runResp with
          | Err err => ret (Err err)
          | Ok runResp =>
              match ec2.Reservation.Instances runResp with
              | [] =>
                  ret (Err (Failure ("Unable to start instances: "
                                     ++ Reservation_String client runResp)))
              | requested :: _ =>
                  say (Fprintln
                         [Text "Checking status of requested instance..."]) ;;
                  running <- awaitRunning turns
                               (ec2.Instance.InstanceId requested) ;;
                  match running with
                  | Err err => ret (Err err)
                  | Ok instance => finishInstance turns p opts keyPath instance
                  end
              end
          end
      end
  end.

(** [CreateInstance], each of its two loops given [turns] turns. *)
Definition CreateInstance (turns : nat) (p : EC2Provisioner)
  (opts : EC2CreateInstanceOptions) : P World (result cfg.RemoteVPS) :=
  withRegion (Region opts) ;;
  t <- lift (time_Now client) Now ;;
  let keyName :=
    Name opts ++ "_" ++ user p ++ "_inertia_key_" ++ itoa t in
  say (Printf ("Generating key pair " ++ keyName ++ "..." ++ nl)) ;;
  let keyInput := {| ec2.CreateKeyPairInput.KeyName := Some keyName |} in
  keyResp <- lift (fun w => ec2_CreateKeyPair client w keyInput)
               (CreateKeyPair keyInput) ;;
  match keyResp with
  | Err err => ret (Err err)
  | Ok keyResp =>
      home <- getenv "HOME" ;;
      created <- deref (ec2.CreateKeyPairOutput.KeyName keyResp) ;;
      let keyPath := filepath_Join client [home; ".ssh"; created] in
      say (Printf ("Saving key to " ++ keyPath ++ "..." ++ nl)) ;;
      material <- deref (ec2.CreateKeyPairOutput.KeyMaterial keyResp) ;;
      err <- lift (fun w => local_SaveKey client w material keyPath)
               (SaveKey material keyPath) ;;
      match err with
      | Some err => ret (Err err)
      | None => startInstance turns p opts keyResp keyPath
      end
  end.

End WithClient.
End provision.

(** The images of a listing that carry a name, and the first ten of them. *)
Definition hasName (image : ec2.Image.t) : bool :=
  match ec2.Image.Name image with Some _ => true | None => false end.

Definition offered (sorted : list ec2.Image.t) : list ec2.Image.t :=
  firstn 10 (filter hasName sorted).

(** The lines of a list of images, when every one has an id and a
    description. *)
Fixpoint imageLines (images : list ec2.Image.t) : outcome (list string) :=
  match images with
  | [] => Returned []
  | image :: rest =>
      match provision.imageLine image with
      | Panicked why => Panicked why
      | Returned line =>
          match imageLines rest with
          | Panicked why => Panicked why
          | Returned lines => Returned (line :: lines)
          end
      end
  end.

(** An image whose creation date is there to be read. *)
Definition dated (image : ec2.Image.t) : Prop :=
  ec2.Image.CreationDate image <> None.

(** ** A small EC2 to run the provisioner on *)

Module SimEC2.

(** What a run does not change: the images of every region, the errors the
    services answer with, if any, the random string, the home directory, the
    id security groups are given and the public name instances are given. *)
Record Setup : Type := {
  catalogue : list (string * list ec2.Image.t);
  describeError : option error;
  keyError : option error;
  saveError : option error;
  ingressError : option error;
  tagsError : option error;
  secret : result string;
  home : string;
  groupId : option string;
  publicName : option string
}.

(** What it changes: the region the client is set to, the clock, the rules
    and the keys stored, the instances asked for, and how many more times
    the instance is found pending and its port 22 closed. *)
Record World : Type := {
  setup : Setup;
  region : string;
  clock : Z;
  ingress : list ec2.AuthorizeSecurityGroupIngressInput.t;
  keys : list (string * string);
  requested : list ec2.RunInstancesInput.t;
  pending : nat;
  closed : nat
}.

Definition setRegion (r : string) (w : World) : World :=
  {| setup := setup w; region := r; clock := clock w; ingress := ingress w;
     keys := keys w; requested := requested w; pending := pending w;
     closed := closed w |}.

Definition advance (d : Z) (w : World) : World :=
  {| setup := setup w; region := region w; clock := clock w + d;
     ingress := ingress w; keys := keys w; requested := requested w;
     pending := pending w; closed := closed w |}.

Definition addIngress (input : ec2.AuthorizeSecurityGroupIngressInput.t)
  (w : World) : World :=
  {| setup := setup w; region := region w; clock := clock w;
     ingress := (ingress w ++ [input])%list; keys := keys w;
     requested := requested w; pending := pending w; closed := closed w |}.

Definition addKey (path material : string) (w : World) : World :=
  {| setup := setup w; region := region w; clock := clock w;
     ingress := ingress w; keys := (keys w ++ [(path, material)])%list;
     requested := requested w; pending := pending w; closed := closed w |}.

Definition addRequest (input : ec2.RunInstancesInput.t) (w : World) : World :=
  {| setup := setup w; region := region w; clock := clock w;
     ingress := ingress w; keys := keys w;
     requested := (requested w ++ [input])%list; pending := pending w;
     closed := closed w |}.

Definition setPending (n : nat) (w : World) : World :=
  {| setup := setup w; region := region w; clock := clock w;
     ingress := ingress w; keys := keys w; requested := requested w;
     pending := n; closed := closed w |}.

Definition setClosed (n : nat) (w : World) : World :=
  {| setup := setup w; region := region w; clock := clock w;
     ingress := ingress w; keys := keys w; requested := requested w;
     pending := pending w; closed := n |}.

(** Dates are written as decimal instants here. *)
Definition ParseDate (s : string) : option Z :=
  match strconv.Atoi s with
  | Ok n => Some n
  | Err _ => None
  end.

(** Insertion sort, giving up when the comparison panics. *)
Fixpoint insert (less : ec2.Image.t -> ec2.Image.t -> outcome bool)
  (x : ec2.Image.t) (l : list ec2.Image.t) : outcome (list ec2.Image.t) :=
  match l with
  | [] => Returned [x]
  | y :: rest =>
      match less x y with
      | Panicked why => Panicked why
      | Returned true => Returned (x :: y :: rest)
      | Returned false =>
          match insert less x rest with
          | Panicked why => Panicked why
          | Returned l' => Returned (y :: l')
          end
      end
  end.

Fixpoint sort (less : ec2.Image.t -> ec2.Image.t -> outcome bool)
  (l : list ec2.Image.t) : outcome (list ec2.Image.t) :=
  match l with
  | [] => Returned []
  | x :: rest =>
      match sort less rest with
      | Panicked why => Panicked why
      | Returned sorted => insert less x sorted
      end
  end.

(** The one instance of this cloud, in a given state. *)
Definition instance (code : Z) (name : string) (dns : option string)
  : ec2.Instance.t :=
  {| ec2.Instance.InstanceId := Some "i-1";
     ec2.Instance.PublicDnsName := dns;
     ec2.Instance.State :=
       Some {| ec2.InstanceState.Code := Some code;
               ec2.InstanceState.Name := Some name |} |}.

Definition client : provision.Client World := {|
  provision.ec2_WithRegion := fun w r => setRegion r w;
  provision.ec2_DescribeImages := fun w _ =>
    match describeError (setup w) with
    | Some e => (w, Err e)
    | None =>
        (w, Ok (match Sim.assoc (region w) (catalogue (setup w)) with
                | Some images => images
                | None => []
                end))
    end;
  provision.ec2_CreateKeyPair := fun w input =>
    match keyError (setup w) with
    | Some e => (w, Err e)
    | None =>
        (w, Ok {| ec2.CreateKeyPairOutput.KeyName :=
                    ec2.CreateKeyPairInput.KeyName input;
                  ec2.CreateKeyPairOutput.KeyMaterial := Some "PRIVATE KEY" |})
    end;
  provision.ec2_CreateSecurityGroup := fun w _ =>
    (w, Ok {| ec2.CreateSecurityGroupOutput.GroupId := groupId (setup w) |});
  provision.ec2_AuthorizeSecurityGroupIngress := fun w input =>
    match ingressError (setup w) with
    | Some e => (w, Some e)
    | None => (addIngress input w, None)
    end;
  provision.ec2_RunInstances := fun w input =>
    (addRequest input w,
     Ok {| ec2.Reservation.Instances := [instance 0 "pending" None] |});
  provision.ec2_DescribeInstances := fun w _ =>
    match pending w with
    | O =>
        (w, Ok {| ec2.DescribeInstancesOutput.Reservations :=
                    [{| ec2.Reservation.Instances :=
                          [instance 16 "running" (publicName (setup w))] |}] |})
    | S n =>
        (setPending n w,
         Ok {| ec2.DescribeInstancesOutput.Reservations :=
                 [{| ec2.Reservation.Instances :=
                       [instance 0 "pending" None] |}] |})
    end;
  provision.ec2_CreateTags := fun w _ => (w, tagsError (setup w));
  provision.time_Now := fun w => (advance 1 w, clock w);
  provision.time_Sleep := fun w d => advance d w;
  provision.os_Getenv := fun w key =>
    if String.eqb key "HOME" then home (setup w) else "";
  provision.net_Dial := fun w _ _ =>
    match closed w with
    | O => (w, None)
    | S n => (setClosed n w, Some (Failure "connection refused"))
    end;
  provision.local_SaveKey := fun w material path =>
    match saveError (setup w) with
    | Some e => (w, Some e)
    | None => (addKey path material w, None)
    end;
  provision.common_GenerateRandomString := fun w => (w, secret (setup w));
  provision.common_ParseDate := ParseDate;
  provision.sort_Slice := sort;
  provision.filepath_Join := String.concat "/";
  provision.Reservation_String := fun _ => "{}";
  provision.Instance_String := fun _ => "{}";
  provision.InstanceState_String := fun _ => "{}"
|}.

(** The same client behind a network on which no connection is accepted. *)
Definition offline : provision.Client World := {|
  provision.ec2_WithRegion := provision.ec2_WithRegion client;
  provision.ec2_DescribeImages := provision.ec2_DescribeImages client;
  provision.ec2_CreateKeyPair := provision.ec2_CreateKeyPair client;
  provision.ec2_CreateSecurityGroup := provision.ec2_CreateSecurityGroup client;
  provision.ec2_AuthorizeSecurityGroupIngress :=
    provision.ec2_AuthorizeSecurityGroupIngress client;
  provision.ec2_RunInstances := provision.ec2_RunInstances client;
  provision.ec2_DescribeInstances := provision.ec2_DescribeInstances client;
  provision.ec2_CreateTags := provision.ec2_CreateTags client;
  provision.time_Now := provision.time_Now client;
  provision.time_Sleep := provision.time_Sleep client;
  provision.os_Getenv := provision.os_Getenv client;
  provision.net_Dial := fun w _ _ => (w, Some (Failure "network unreachable"));
  provision.local_SaveKey := provision.local_SaveKey client;
  provision.common_GenerateRandomString :=
    provision.common_GenerateRandomString client;
  provision.common_ParseDate := provision.common_ParseDate client;
  provision.sort_Slice := provision.sort_Slice client;
  provision.filepath_Join := provision.filepath_Join client;
  provision.Reservation_String := provision.Reservation_String client;
  provision.Instance_String := provision.Instance_String client;
  provision.InstanceState_String := provision.InstanceState_String client
|}.

Definition image (name : option string) (id description date : string)
  : ec2.Image.t :=
  {| ec2.Image.Name := name; ec2.Image.ImageId := Some id;
     ec2.Image.Description := Some description;
     ec2.Image.CreationDate := Some date |}.

(** Three named images in us-east-1 and one without a name; one of the
    dates does not parse. *)
Definition account : Setup := {|
  catalogue :=
    [("us-east-1",
      [image (Some "amzn-a") "ami-1" "old" "100";
       image None "ami-2" "nameless" "300";
       image (Some "amzn-c") "ami-3" "undated" "soon";
       image (Some "amzn-d") "ami-4" "new" "200"])];
  describeError := None;
  keyError := None;
  saveError := None;
  ingressError := None;
  tagsError := None;
  secret := Ok "s3cr3t";
  home := "/home/me";
  groupId := Some "sg-1";
  publicName := Some "ec2-1.compute.amazonaws.com"
|}.

Definition start (s : Setup) (pending closed : nat) : World := {|
  setup := s;
  region := "";
  clock := 1000;
  ingress := [];
  keys := [];
  requested := [];
  pending := pending;
  closed := closed
|}.

(** The instance is found pending twice and its port closed once. *)
Definition cloud : World := start account 2 1.

(** The same account when no random string can be had and the tags are
    refused. *)
Definition troubled : Setup := {|
  catalogue := catalogue account;
  describeError := Some (Failure "RequestLimitExceeded");
  keyError := None;
  saveError := None;
  ingressError := None;
  tagsError := Some (Failure "TagLimitExceeded");
  secret := Err (Failure "no entropy");
  home := home account;
  groupId := groupId account;
  publicName := publicName account
|}.

(** The same account when instances are given no public name, and when
    security groups come back without an id. *)
Definition unnamed : Setup := {|
  catalogue := catalogue account;
  describeError := None;
  keyError := None;
  saveError := None;
  ingressError := None;
  tagsError := None;
  secret := secret account;
  home := home account;
  groupId := groupId account;
  publicName := None
|}.

Definition groupless : Setup := {|
  catalogue := catalogue account;
  describeError := None;
  keyError := None;
  saveError := None;
  ingressError := None;
  tagsError := None;
  secret := secret account;
  home := home account;
  groupId := None;
  publicName := publicName account
|}.

Definition user : provision.EC2Provisioner := {| provision.user := "me" |}.

Definition options : provision.EC2CreateInstanceOptions := {|
  provision.Name := "staging";
  provision.ProjectName := "shop";
  provision.Ports := [80; 443];
  provision.DaemonPort := 4303;
  provision.ImageID := "ami-4";
  provision.InstanceType := "t2.micro";
  provision.Region := "us-east-1"
|}.

(** What the provisioning of [options] on [cloud] hands back, and the
    instance it asks for. *)
Definition remote : cfg.RemoteVPS := {|
  cfg.Name := "staging";
  cfg.IP := "ec2-1.compute.amazonaws.com";
  cfg.User := "me";
  cfg.PEM := "/home/me/.ssh/staging_me_inertia_key_1000";
  cfg.SSHPort := "22";
  cfg.Daemon := Some {| cfg.Port := "4303"; cfg.WebHookSecret := "s3cr3t" |}
|}.

Definition request : ec2.RunInstancesInput.t := {|
  ec2.RunInstancesInput.ImageId := Some "ami-4";
  ec2.RunInstancesInput.InstanceType := Some "t2.micro";
  ec2.RunInstancesInput.MinCount := Some 1;
  ec2.RunInstancesInput.MaxCount := Some 1;
  ec2.RunInstancesInput.KeyName := Some "staging_me_inertia_key_1000";
  ec2.RunInstancesInput.SecurityGroupIds := [Some "sg-1"]
|}.

Definition tags : ec2.CreateTagsInput.t := {|
  ec2.CreateTagsInput.Resources := [Some "i-1"];
  ec2.CreateTagsInput.Tags :=
    [{| ec2.Tag.Key := Some "Name"; ec2.Tag.Value := Some "staging" |};
     {| ec2.Tag.Key := Some "Purpose";
        ec2.Tag.Value := Some "Inertia Continuous Deployment" |}]
|}.

End SimEC2.


(** ** Reading the calls of a provisioning *)

Definition isRunInstances (c : provision.call) : bool :=
  match c with provision.RunInstances _ _ => true | _ => false end.

Definition isDial (c : provision.call) : bool :=
  match c with provision.Dial _ _ _ => true | _ => false end.

(** The calls the first loop of [CreateInstance] makes: sleeps, requests for
    the instance, and lines about its state. *)
Definition statusCall (c : provision.call) : Prop :=
  match c with
  | provision.Sleep _ => True
  | provision.DescribeInstances _ _ => True
  | provision.PrintlnWriter _ => True
  | provision.Fprintln [Text line] =>
      line = "No reservations found yet." \/
      line = "Instance is running!" \/
      exists state, line = "Instance status: " ++ state
  | _ => False
  end.

(** The calls the second loop makes: sleeps, dials, the closing of the
    connection, and lines about the port. *)
Definition portCall (c : provision.call) : Prop :=
  match c with
  | provision.Sleep _ => True
  | provision.Dial _ _ _ => True
  | provision.ConnClose => True
  | provision.Fprintln [Text line] =>
      line = "Checking ports..." \/ line = "Connection established!"
  | _ => False
  end.

(** In a list of calls, every request for the instance comes right after a
    sleep of three seconds, and every dial right after such a sleep and the
    line that announces it. *)
Definition paced (calls : list provision.call) : Prop :=
  forall pre c post,
    calls = (pre ++ c :: post)%list ->
    match c with
    | provision.DescribeInstances _ _ =>
        exists before,
          pre = (before ++ [provision.Sleep (3 * time.Second)])%list
    | provision.Dial _ _ _ =>
        exists before,
          pre = (before ++ [provision.Sleep (3 * time.Second);
                            provision.Fprintln [Text "Checking ports..."]])%list
    | _ => True
    end.

(** A call that is neither a request for the instance nor a dial. *)
Definition notPoll (c : provision.call) : Prop :=
  match c with
  | provision.DescribeInstances _ _ => False
  | provision.Dial _ _ _ => False
  | _ => True
  end.

(** * Proofs *)

Local Open Scope list_scope.

(** ** Traces *)

Lemma stopsIssued_app (t1 t2 : list event) :
  stopsIssued (t1 ++ t2) = stopsIssued t1 ++ stopsIssued t2.
Proof.
  induction t1 as [|e t1 IH]; [reflexivity|].
  destruct e; simpl; rewrite ?IH; reflexivity.
Qed.

Lemma replay_app {World} (cli : DockerClient World) (t1 t2 : list event) :
  forall w, replay cli w (t1 ++ t2) = replay cli (replay cli w t1) t2.
Proof.
  induction t1 as [|e t1 IH]; intros w; [reflexivity|].
  destruct e; simpl; apply IH.
Qed.

Lemma statuses_app (t1 t2 : list event) :
  statuses (t1 ++ t2) = statuses t1 ++ statuses t2.
Proof.
  induction t1 as [|e t1 IH]; [reflexivity|].
  simpl. destruct (status_of e); simpl; rewrite IH; reflexivity.
Qed.

(** A trace that ends with its only event of a kind splits there only. *)
Lemma split_at_last (f : event -> bool) (a b a' : list event) (x x' : event) :
  a ++ x :: b = a' ++ [x'] ->
  f x = true ->
  existsb f a' = false ->
  a = a' /\ x = x' /\ b = [].
Proof.
  revert a'. induction a as [|y a IH]; intros a' E Hx Ha'.
  - destruct a' as [|y' a'']; simpl in E.
    + inversion E; auto.
    + inversion E; subst. simpl in Ha'. rewrite Hx in Ha'. discriminate.
  - destruct a' as [|y' a'']; simpl in E.
    + inversion E as [[E1 E2]]. destruct a; discriminate.
    + inversion E as [[E1 E2]]. subst y'. simpl in Ha'.
      apply orb_false_iff in Ha' as [_ Ha'].
      destruct (IH a'' E2 Hx Ha') as (-> & -> & ->). auto.
Qed.

Lemma existsb_in_middle (f : event -> bool) (a b : list event) (x : event) :
  f x = true -> existsb f (a ++ x :: b) = true.
Proof.
  intros Hx. rewrite existsb_app. simpl. rewrite Hx.
  rewrite orb_true_r. reflexivity.
Qed.


(** ** The loop of stopActiveContainers *)

Section StopEach.

Context {World : Type} (cli : DockerClient World).

Lemma stopEach_nameless c rest w :
  types.Names c = [] ->
  containers.stopEach cli (c :: rest) w
  = Ran (Panicked "index out of range") w [].
Proof.
  intros E. simpl. unfold bind, containers.Names0.
  rewrite E. reflexivity.
Qed.

Lemma stopEach_daemon c name names rest w :
  types.Names c = name :: names ->
  String.eqb name containers.daemonName = true ->
  let r := containers.stopEach cli rest w in
  containers.stopEach cli (c :: rest) w = Ran (value r) (final r) (trace r).
Proof.
  intros E D. simpl. unfold bind, containers.Names0.
  rewrite E. simpl. rewrite D. simpl.
  destruct (containers.stopEach cli rest w). reflexivity.
Qed.

Lemma stopEach_failed c name names rest w e :
  types.Names c = name :: names ->
  String.eqb name containers.daemonName = false ->
  snd (cli_ContainerStop cli w (types.ID c) containers.stopTimeout) = Some e ->
  containers.stopEach cli (c :: rest) w =
    Ran (Returned (Some e))
      (fst (cli_ContainerStop cli w (types.ID c) containers.stopTimeout))
      [Fprintln ("Stopping " ++ name ++ "...")%string;
       CallContainerStop (types.ID c) containers.stopTimeout (Some e)].
Proof.
  intros E D S. simpl.
  unfold bind, containers.Names0, containers.docker_ContainerStop, emit, ret.
  rewrite E. simpl. rewrite D. simpl.
  destruct (cli_ContainerStop cli w (types.ID c) containers.stopTimeout)
    as [w' r]. simpl in *. subst r. reflexivity.
Qed.

Lemma stopEach_stopped c name names rest w :
  types.Names c = name :: names ->
  String.eqb name containers.daemonName = false ->
  snd (cli_ContainerStop cli w (types.ID c) containers.stopTimeout) = None ->
  let w' := fst (cli_ContainerStop cli w (types.ID c) containers.stopTimeout) in
  let r := containers.stopEach cli rest w' in
  containers.stopEach cli (c :: rest) w =
    Ran (value r) (final r)
      ([Fprintln ("Stopping " ++ name ++ "...")%string;
        CallContainerStop (types.ID c) containers.stopTimeout None] ++ trace r).
Proof.
  intros E D S. simpl.
  unfold bind, containers.Names0, containers.docker_ContainerStop, emit, ret.
  rewrite E. simpl. rewrite D. simpl.
  destruct (cli_ContainerStop cli w (types.ID c) containers.stopTimeout)
    as [w' r]. simpl in *. subst r. simpl.
  destruct (containers.stopEach cli rest w'). reflexivity.
Qed.

Lemma stopEach_spec cs :
  forall w, stopEach_post cli cs w (containers.stopEach cli cs w).
Proof.
  induction cs as [|c rest IH]; intros w.
  - unfold stopEach_post; simpl. repeat split; constructor.
  - destruct (types.Names c) as [|name names] eqn:EN.
    { rewrite stopEach_nameless by exact EN.
      unfold stopEach_post; simpl. repeat split.
      exists [], c, rest. repeat split; auto. }
    assert (Hnamed : named c) by (unfold named; rewrite EN; discriminate).
    destruct (String.eqb name containers.daemonName) eqn:ED.
    { rewrite (stopEach_daemon c rest w EN ED).
      assert (HP : isProject c = false)
        by (unfold isProject; rewrite EN, ED; reflexivity).
      specialize (IH w). unfold stopEach_post in *. simpl.
      destruct IH as (IH1 & IH2 & IH3). repeat split; auto.
      destruct (value (containers.stopEach cli rest w)) as [[e|]|why].
      - destruct IH3 as (pre & c' & post & tr0 & -> & H1 & H2 & H3 & H4 & H5).
        exists (c :: pre), c', post, tr0. simpl. rewrite HP.
        repeat split; auto.
      - destruct IH3 as (H1 & H2 & H3). rewrite HP. repeat split; auto.
      - destruct IH3 as (pre & c' & post & -> & H1 & H2 & H3 & H4).
        exists (c :: pre), c', post. simpl. rewrite HP.
        repeat split; auto. }
    assert (HP : isProject c = true)
      by (unfold isProject; rewrite EN, ED; reflexivity).
    destruct (snd (cli_ContainerStop cli w (types.ID c) containers.stopTimeout))
      as [e|] eqn:ES.
    { rewrite (stopEach_failed c rest w EN ED ES).
      unfold stopEach_post; simpl. repeat split.
      exists [], c, rest, [Fprintln ("Stopping " ++ name ++ "...")%string].
      repeat split; auto. }
    rewrite (stopEach_stopped c rest w EN ED ES).
    specialize
      (IH (fst (cli_ContainerStop cli w (types.ID c) containers.stopTimeout))).
    unfold stopEach_post in *. simpl.
    destruct IH as (IH1 & IH2 & IH3). repeat split; auto.
    destruct (value (containers.stopEach cli rest _)) as [[e|]|why].
    + destruct IH3 as (pre & c' & post & tr0 & -> & H1 & H2 & H3 & H4 & H5).
      exists (c :: pre), c', post,
        (Fprintln ("Stopping " ++ name ++ "...")%string
           :: CallContainerStop (types.ID c) containers.stopTimeout None :: tr0).
      simpl. rewrite HP, H3, H4. repeat split; auto.
    + destruct IH3 as (H1 & H2 & H3). rewrite HP. simpl. rewrite H2.
      repeat split; auto.
    + destruct IH3 as (pre & c' & post & -> & H1 & H2 & H3 & H4).
      exists (c :: pre), c', post. simpl. rewrite HP. simpl. rewrite H3.
      repeat split; auto.
Qed.

End StopEach.

(** ** stopActiveContainers *)

Section StopActiveContainers.

Context {World : Type} (cli : DockerClient World).

Lemma stopActiveContainers_eq w :
  let head := Fprintln "Shutting down active containers..." in
  let l := cli_ContainerList cli w in
  containers.stopActiveContainers cli w =
  match snd l with
  | Err e => Ran (Returned (Some e)) (fst l) [head; CallContainerList (Err e)]
  | Ok cs =>
      let r1 := containers.stopEach cli cs (fst l) in
      match value r1 with
      | Returned None =>
          let p := cli_ContainersPrune cli (final r1) in
          Ran (Returned (snd p)) (fst p)
            ((head :: CallContainerList (Ok cs) :: trace r1)
               ++ [CallContainersPrune (snd p)])
      | Returned (Some e) =>
          Ran (Returned (Some e)) (final r1)
            (head :: CallContainerList (Ok cs) :: trace r1)
      | Panicked why =>
          Ran (Panicked why) (final r1)
            (head :: CallContainerList (Ok cs) :: trace r1)
      end
  end.
Proof.
  unfold containers.stopActiveContainers, bind, emit, ret,
    containers.docker_ContainerList, containers.docker_ContainersPrune.
  simpl. destruct (cli_ContainerList cli w) as [w1 [cs|e]]; simpl; auto.
  destruct (containers.stopEach cli cs w1) as [[[e|]|why] w2 t]; simpl.
  - rewrite app_nil_r. reflexivity.
  - destruct (cli_ContainersPrune cli w2) as [w3 pe]. reflexivity.
  - reflexivity.
Qed.

End StopActiveContainers.

(** ** Teardown: which containers are stopped, and when it gives up *)




(** C4.  When a stop fails during teardown, the failed stop is the last thing
    teardown does: it returns that very error, nothing follows in the trace
    (no stop of a later container, no prune), every stop before it had
    succeeded and belongs to the project containers listed before the failing
    one, and the runtime is left as the failed stop left it on top of the
    earlier stops: nothing is rolled back. *)
Theorem stopActiveContainers_aborts_on_stop_failure :
  forall (World : Type) (cli : DockerClient World) (w : World)
         (before after : list event) (id : string) (timeout : Z) (e : error),
    trace (containers.stopActiveContainers cli w)
      = before ++ CallContainerStop id timeout (Some e) :: after ->
    let r := containers.stopActiveContainers cli w in
    value r = Returned (Some e) /\
    after = [] /\
    existsb isPrune (trace r) = false /\
    existsb stopFailed before = false /\
    (exists pre c post,
        snd (cli_ContainerList cli w) = Ok (pre ++ c :: post) /\
        isProject c = true /\ (id, timeout) = stopOf c /\
        stopsIssued before = map stopOf (filter isProject pre)) /\
    final r = fst (cli_ContainerStop cli (replay cli w before) id timeout).
Proof.
  intros World cli w before after id timeout e HT r. subst r.
  rewrite stopActiveContainers_eq in HT |- *. cbv zeta in HT |- *.
  destruct (snd (cli_ContainerList cli w)) as [cs|le] eqn:HL.
  2:{ cbn [trace] in HT. exfalso.
      assert (F : existsb stopFailed
                    [Fprintln "Shutting down active containers...";
                     CallContainerList (Err le)] = true)
        by (rewrite HT; apply existsb_in_middle; reflexivity).
      discriminate. }
  pose proof (stopEach_spec cli cs (fst (cli_ContainerList cli w))) as S.
  unfold stopEach_post in S. destruct S as (HW & HPr & S).
  destruct (value (containers.stopEach cli cs _)) as [[e'|]|why];
    cbn [trace value final] in HT |- *.
  - destruct S as (pre & c & post & tr0 & -> & HP & _ & HT0 & HS & HF).
    rewrite HT0 in HT, HPr, HW |- *.
    change (?a :: ?b :: tr0 ++ ?l) with ((a :: b :: tr0) ++ l) in HT.
    symmetry in HT.
    apply (split_at_last stopFailed) in HT as (-> & HX & ->);
      [|reflexivity|exact HF].
    inversion HX; subst. repeat split; auto.
    + exists pre, c, post. repeat split; auto.
    + rewrite HW. rewrite replay_app. cbn [replay].
      destruct (cli_ContainerList cli w); reflexivity.
  - exfalso. destruct S as (_ & _ & HF).
    assert (F : existsb stopFailed
              ((Fprintln "Shutting down active containers..."
                 :: CallContainerList (Ok cs)
                 :: trace (containers.stopEach cli cs (fst (cli_ContainerList cli w))))
               ++ [CallContainersPrune
                     (snd (cli_ContainersPrune cli
                        (final (containers.stopEach cli cs
                                  (fst (cli_ContainerList cli w))))))]) = true)
      by (rewrite HT; apply existsb_in_middle; reflexivity).
    rewrite existsb_app in F. cbn [existsb stopFailed orb] in F.
    rewrite HF in F. discriminate.
  - exfalso. destruct S as (pre & c & post & -> & _ & _ & _ & HF).
    assert (F : existsb stopFailed
              (Fprintln "Shutting down active containers..."
                 :: CallContainerList (Ok (pre ++ c :: post))
                 :: trace (containers.stopEach cli (pre ++ c :: post)
                             (fst (cli_ContainerList cli w)))) = true)
      by (rewrite HT; apply existsb_in_middle; reflexivity).
    cbn [existsb stopFailed orb] in F. rewrite HF in F. discriminate.
Qed.

(** The prune comes last and only after the stops: when teardown calls
    ContainersPrune, every listed project container has been stopped with
    success before it, nothing follows it, and its result (an error
    included) is what teardown returns; and when the listing succeeds, every
    container has a name and no stop fails, teardown does call it. *)
Theorem stopActiveContainers_prunes_after_all_stops :
  forall (World : Type) (cli : DockerClient World) (w : World),
    let r := containers.stopActiveContainers cli w in
    (forall before pe after,
        trace r = before ++ CallContainersPrune pe :: after ->
        after = [] /\
        value r = Returned pe /\
        existsb stopFailed before = false /\
        exists cs,
          snd (cli_ContainerList cli w) = Ok cs /\
          Forall named cs /\
          stopsIssued before = map stopOf (filter isProject cs)) /\
    (forall cs,
        snd (cli_ContainerList cli w) = Ok cs ->
        Forall named cs ->
        existsb stopFailed (trace r) = false ->
        exists before pe,
          trace r = before ++ [CallContainersPrune pe] /\
          value r = Returned pe /\
          stopsIssued before = map stopOf (filter isProject cs)).
Proof.
  intros World cli w r. subst r.
  rewrite stopActiveContainers_eq. cbv zeta.
  destruct (snd (cli_ContainerList cli w)) as [cs|le] eqn:HL.
  2:{ cbn [trace value]. split.
      - intros before pe after HT. exfalso.
        assert (F : existsb isPrune
                      [Fprintln "Shutting down active containers...";
                       CallContainerList (Err le)] = true)
          by (rewrite HT; apply existsb_in_middle; reflexivity).
        discriminate.
      - intros cs HC. discriminate. }
  pose proof (stopEach_spec cli cs (fst (cli_ContainerList cli w))) as S.
  unfold stopEach_post in S. destruct S as (HW & HPr & S).
  destruct (value (containers.stopEach cli cs _)) as [[e'|]|why];
    cbn [trace value final].
  - split.
    + intros before pe after HT. exfalso.
      assert (F : existsb isPrune
                (Fprintln "Shutting down active containers..."
                   :: CallContainerList (Ok cs)
                   :: trace (containers.stopEach cli cs
                               (fst (cli_ContainerList cli w)))) = true)
        by (rewrite HT; apply existsb_in_middle; reflexivity).
      cbn [existsb isPrune orb] in F. rewrite HPr in F. discriminate.
    + intros cs' _ _ F. exfalso.
      destruct S as (pre & c & post & tr0 & _ & _ & _ & HT0 & _ & _).
      rewrite HT0 in F. cbn [existsb stopFailed orb] in F.
      rewrite existsb_in_middle in F by reflexivity. discriminate.
  - destruct S as (HN & HS & HF). split.
    + intros before pe after HT. symmetry in HT.
      apply (split_at_last isPrune) in HT as (-> & HX & ->);
        [|reflexivity|cbn [existsb isPrune orb]; exact HPr].
      inversion HX as [HX']. rewrite <- HX'. repeat split; auto.
      exists cs. repeat split; auto.
    + intros cs' HC _ _. inversion HC; subst cs'.
      eexists. eexists. split; [reflexivity|]. split; [reflexivity|].
      cbn [stopsIssued]. exact HS.
  - split.
    + intros before pe after HT. exfalso.
      assert (F : existsb isPrune
                (Fprintln "Shutting down active containers..."
                   :: CallContainerList (Ok cs)
                   :: trace (containers.stopEach cli cs
                               (fst (cli_ContainerList cli w)))) = true)
        by (rewrite HT; apply existsb_in_middle; reflexivity).
      cbn [existsb isPrune orb] in F. rewrite HPr in F. discriminate.
    + intros cs' HC HN _. exfalso. inversion HC; subst cs'.
      destruct S as (pre & c & post & -> & HE & _).
      rewrite Forall_forall in HN.
      apply (HN c); [apply in_or_app; right; left; reflexivity | exact HE].
Qed.

(** ** The handlers *)

(** Case analysis on the answer of the collaborator the run is waiting for:
    the innermost scrutinee that is stuck. *)
Ltac destruct_innermost x :=
  lazymatch x with
  | context [match ?y with _ => _ end] => destruct_innermost y
  | _ => destruct x eqn:?
  end.

Ltac run_step :=
  match goal with
  | |- context [match ?x with _ => _ end] => destruct_innermost x
  end.

(** An event is in a trace written out. *)
Ltac in_trace := cbn [In]; repeat (first [left; reflexivity | right]).

Ltac close_run :=
  repeat split; first [reflexivity | in_trace | discriminate | idtac].

Ltac run_up :=
  cbv beta iota zeta delta
    [bind ret emit panic defer value final trace app
     inertiad.upHandler inertiad.bringUp inertiad.compareAndDeploy
     inertiad.initializeIfNeeded inertiad.lift inertiad.setWebhookSecret
     inertiad.ReadProjectConfig inertiad.NewDockerClient inertiad.GetStatus
     inertiad.Initialize inertiad.CompareRemotes inertiad.SetConfig
     inertiad.Deploy inertiad.call inertiad.error_of
     inertiad.world inertiad.webhookSecret].

(** C10.  When Initialize fails during an up request, the one status the
    handler reports is 412 (precondition failed), not 500, written through
    the logger with the error of Initialize, and neither Deploy nor the
    function it returns is called. *)
Theorem upHandler_initialize_failure_is_412 :
  forall (World : Type) (env : inertiad.Imports World) (r : Request)
         (p : inertiad.Process World) (cfg : project.DeploymentConfig)
         (e : error),
    let tr := trace (inertiad.upHandler env r p) in
    In (CallInitialize cfg (Some e)) tr ->
    statuses tr = [http.StatusPreconditionFailed] /\
    In (LogWriteErr (ErrorText e) http.StatusPreconditionFailed) tr /\
    existsb isDeploy tr = false /\
    http.StatusPreconditionFailed <> http.StatusInternalServerError.
Proof.
  intros World env r p cfg e tr. subst tr.
  run_up.
  repeat (run_step; run_up).
  all: cbn [In]; intros H; intuition (try discriminate).
  all: try match goal with
         | H : CallInitialize _ _ = CallInitialize _ _ |- _ =>
             inversion H; subst
         end.
  all: close_run.
Qed.



(** C9.  Once the body of an up request is read and decoded, the
    process-wide webhook secret is the one of the request, whatever happens
    afterwards: storing it is the first effect of the handler, before the
    project configuration is read, the remotes compared or anything
    deployed, and it is stored once. *)
Theorem upHandler_stores_webhook_secret_first :
  forall (World : Type) (env : inertiad.Imports World) (r : Request)
         (p : inertiad.Process World) (body : string)
         (upReq : common.UpRequest),
    Body r = Ok body ->
    inertiad.json_Unmarshal env body = Ok upReq ->
    let ran := inertiad.upHandler env r p in
    inertiad.webhookSecret (final ran) = common.WebHookSecret upReq /\
    exists rest,
      trace ran = SetWebhookSecret (common.WebHookSecret upReq) :: rest /\
      forall s, ~ In (SetWebhookSecret s) rest.
Proof.
  intros World env r p body upReq HB HU ran. subst ran.
  unfold inertiad.upHandler. rewrite HB.
  cbv beta iota delta [defer]. rewrite HU.
  run_up.
  repeat (run_step; run_up).
  all: split; [reflexivity|].
  all: eexists; split; [reflexivity|].
  all: intros s; cbn [In]; intuition discriminate.
Qed.

Ltac run_down :=
  cbv beta iota zeta delta
    [bind ret emit panic defer value final trace app
     daemon.downHandler daemon.GetStatus daemon.Down].

(** C2.  When the runtime lists at most one container, getActiveContainers
    fails with ErrNoContainers; when it lists two or more, it returns them
    all.  In downHandler an ErrNoContainers coming out of Down is reported
    as 412, any other error as 500, and the two statuses differ. *)
Theorem downHandler_reports_NoContainers_as_412 :
  (forall (World : Type) (cli : DockerClient World) (w : World)
          (cs : list types.Container),
      snd (cli_ContainerList cli w) = Ok cs ->
      ((List.length cs <= 1)%nat ->
       value (containers.getActiveContainers cli w)
       = Returned (Err ErrNoContainers)) /\
      ((2 <= List.length cs)%nat ->
       value (containers.getActiveContainers cli w) = Returned (Ok cs))) /\
  (forall (World : Type) (s : daemon.Server World) (r : Request) (w : World)
          (e : error),
      let tr := trace (daemon.downHandler s r w) in
      In (CallDown (Some e)) tr ->
      statuses tr =
        [match e with
         | ErrNoContainers => http.StatusPreconditionFailed
         | _ => http.StatusInternalServerError
         end] /\
      In (LogWriteErr (ErrorText e)
            match e with
            | ErrNoContainers => http.StatusPreconditionFailed
            | _ => http.StatusInternalServerError
            end) tr) /\
  http.StatusPreconditionFailed <> http.StatusInternalServerError.
Proof.
  split; [|split].
  - intros World cli w cs HL.
    unfold containers.getActiveContainers, containers.docker_ContainerList,
      bind, ret.
    destruct (cli_ContainerList cli w) as [w' l]. simpl in HL. subst l.
    split; intros H.
    + apply Nat.leb_le in H. rewrite H. reflexivity.
    + destruct (List.length cs <=? 1)%nat eqn:E; [|reflexivity].
      apply Nat.leb_le in E. lia.
  - intros World s r w e tr. subst tr.
    run_down.
    repeat (run_step; run_down).
    all: cbn [In]; intros H; intuition (try discriminate).
    all: repeat match goal with
           | H : CallDown _ = CallDown _ |- _ => inversion H; clear H; subst
           end.
    all: close_run.
  - discriminate.
Qed.


Lemma parseStream_error (streamParam : string) (e : error) :
  streamParam <> "" -> strconv.ParseBool streamParam = Err e ->
  daemon.parseStream streamParam = Err e.
Proof.
  intros NE H. unfold daemon.parseStream.
  destruct (String.eqb streamParam "") eqn:E.
  - apply String.eqb_eq in E. contradiction.
  - exact H.
Qed.

Lemma parseEntries_error (entriesParam : string) (e : error) :
  entriesParam <> "" -> strconv.Atoi entriesParam = Err e ->
  daemon.parseEntries entriesParam = Err e.
Proof.
  intros NE H. unfold daemon.parseEntries.
  destruct (String.eqb entriesParam "") eqn:E.
  - apply String.eqb_eq in E. contradiction.
  - cbn [negb]. rewrite H. reflexivity.
Qed.


(** ** The limit of a logs request *)

Lemma parseEntries_default :
  daemon.parseEntries "" = Ok 500 /\ daemon.parseEntries "0" = Ok 500.
Proof. split; reflexivity. Qed.

Lemma parseEntries_never_zero (entriesParam : string) (entries : Z) :
  daemon.parseEntries entriesParam = Ok entries -> entries <> 0.
Proof.
  unfold daemon.parseEntries.
  destruct (if negb (String.eqb entriesParam "")
            then strconv.Atoi entriesParam else Ok 0) as [n|e];
    [|discriminate].
  destruct (n =? 0) eqn:E; intros H; inversion H; subst.
  - discriminate.
  - apply Z.eqb_neq. exact E.
Qed.

Lemma parseEntries_never_zero_witness :
  daemon.parseEntries "" = Ok 500 /\ daemon.parseEntries "0" = Ok 500 /\
  daemon.parseEntries "25" = Ok 25 /\ 25 <> 0.
Proof.
  repeat split; try reflexivity.
  exact (@parseEntries_never_zero "25" 25 eq_refl).
Defined.

(** The query [ContainerLogs] sends does not depend on Entries. *)
Lemma ContainerLogs_ignores_Entries
  {World} (cli : DockerClient World) (container : string) (stream : bool)
  (n m : Z) (w : World) :
  containers.ContainerLogs cli
    {| containers.Container := container; containers.Stream := stream;
       containers.Entries := n |} w
  = containers.ContainerLogs cli
      {| containers.Container := container; containers.Stream := stream;
         containers.Entries := m |} w.
Proof. reflexivity. Qed.


(** C5.  What teardown prunes: on a host that runs the daemon and three
    project containers and holds one unused image, teardown stops the three
    and then calls the client's ContainersPrune, its only prune; the stopped
    containers are gone and the unused image is still there. *)
Theorem stopActiveContainers_prunes_containers_not_images :
  trace (containers.stopActiveContainers Sim.cli (Sim.host Sim.fleet [] None))
  = [Fprintln "Shutting down active containers...";
     CallContainerList (Ok Sim.fleet);
     Fprintln "Stopping /web...";
     CallContainerStop "a1" 10000000000 None;
     Fprintln "Stopping /db...";
     CallContainerStop "b2" 10000000000 None;
     Fprintln "Stopping /cache...";
     CallContainerStop "c3" 10000000000 None;
     CallContainersPrune None] /\
  value (containers.stopActiveContainers Sim.cli (Sim.host Sim.fleet [] None))
  = Returned None /\
  Sim.exited
    (final (containers.stopActiveContainers Sim.cli (Sim.host Sim.fleet [] None)))
  = [] /\
  Sim.images (Sim.host Sim.fleet [] None) = ["app:old"] /\
  Sim.images
    (final (containers.stopActiveContainers Sim.cli (Sim.host Sim.fleet [] None)))
  = ["app:old"].
Proof. vm_compute. repeat split. Qed.

(** ** The theorems at work on the small hosts *)

Lemma downHandler_reports_NoContainers_witness :
  value (containers.getActiveContainers Sim.cli
           (Sim.host [Sim.daemonContainer] [] None))
  = Returned (Err ErrNoContainers) /\
  value (containers.getActiveContainers Sim.cli
           (Sim.host [Sim.daemonContainer; Sim.container "a1" "/web"] [] None))
  = Returned (Ok [Sim.daemonContainer; Sim.container "a1" "/web"]) /\
  statuses
    (trace (daemon.downHandler (Sim.server ["/web"] (Some ErrNoContainers))
              (Sim.logsRequest []) (Sim.host [Sim.daemonContainer] [] None)))
  = [412] /\
  statuses
    (trace (daemon.downHandler
              (Sim.server ["/web"] (Some (Failure "runtime unavailable")))
              (Sim.logsRequest []) (Sim.host [Sim.daemonContainer] [] None)))
  = [500].
Proof.
  destruct downHandler_reports_NoContainers_as_412 as (L & D & _).
  split; [|split; [|split]].
  - apply (L _ Sim.cli (Sim.host [Sim.daemonContainer] [] None)
             [Sim.daemonContainer] eq_refl).
    simpl. lia.
  - apply (L _ Sim.cli
             (Sim.host [Sim.daemonContainer; Sim.container "a1" "/web"] [] None)
             [Sim.daemonContainer; Sim.container "a1" "/web"] eq_refl).
    simpl. lia.
  - apply (D _ (Sim.server ["/web"] (Some ErrNoContainers))
             (Sim.logsRequest []) (Sim.host [Sim.daemonContainer] [] None)
             ErrNoContainers).
    vm_compute. in_trace.
  - apply (D _ (Sim.server ["/web"] (Some (Failure "runtime unavailable")))
             (Sim.logsRequest []) (Sim.host [Sim.daemonContainer] [] None)
             (Failure "runtime unavailable")).
    vm_compute. in_trace.
Defined.


Lemma stopActiveContainers_aborts_witness :
  trace (containers.stopActiveContainers Sim.cli Sim.failingHost)
  = [Fprintln "Shutting down active containers...";
     CallContainerList (Ok Sim.fleet);
     Fprintln "Stopping /web...";
     CallContainerStop "a1" 10000000000 None;
     Fprintln "Stopping /db..."]
    ++ CallContainerStop "b2" 10000000000
         (Some (Failure "cannot stop container: b2")) :: [] /\
  value (containers.stopActiveContainers Sim.cli Sim.failingHost)
  = Returned (Some (Failure "cannot stop container: b2")) /\
  Sim.stopped (final (containers.stopActiveContainers Sim.cli Sim.failingHost))
  = ["a1"].
Proof.
  split; [reflexivity|].
  destruct (@stopActiveContainers_aborts_on_stop_failure
              _ Sim.cli Sim.failingHost _ _ _ _ _
              (eq_refl :
                 trace (containers.stopActiveContainers Sim.cli Sim.failingHost)
                 = [Fprintln "Shutting down active containers...";
                    CallContainerList (Ok Sim.fleet);
                    Fprintln "Stopping /web...";
                    CallContainerStop "a1" 10000000000 None;
                    Fprintln "Stopping /db..."]
                   ++ CallContainerStop "b2" 10000000000
                        (Some (Failure "cannot stop container: b2")) :: []))
    as (V & _ & _ & _ & _ & F).
  split; [exact V|].
  rewrite F. reflexivity.
Defined.

Lemma stopActiveContainers_prunes_witness :
  exists before,
    trace (containers.stopActiveContainers Sim.cli
             (Sim.host Sim.fleet [] (Some (Failure "prune failed"))))
    = before ++ [CallContainersPrune (Some (Failure "prune failed"))] /\
    value (containers.stopActiveContainers Sim.cli
             (Sim.host Sim.fleet [] (Some (Failure "prune failed"))))
    = Returned (Some (Failure "prune failed")) /\
    stopsIssued before
    = [("a1", 10000000000); ("b2", 10000000000); ("c3", 10000000000)].
Proof.
  destruct (stopActiveContainers_prunes_after_all_stops Sim.cli
              (Sim.host Sim.fleet [] (Some (Failure "prune failed"))))
    as (_ & P).
  destruct (P Sim.fleet eq_refl) as (before & pe & HT & HV & HS).
  - unfold named. repeat constructor; discriminate.
  - reflexivity.
  - exists before. vm_compute in HV. inversion HV; subst pe. auto.
Defined.



Lemma upHandler_stores_webhook_secret_witness :
  inertiad.webhookSecret (SimUp.process SimUp.deployed) = "old" /\
  inertiad.webhookSecret
    (final (inertiad.upHandler (SimUp.env "git@github.com:a/two.git")
              SimUp.upRequest (SimUp.process SimUp.deployed))) = "s3cret" /\
  statuses
    (trace (inertiad.upHandler (SimUp.env "git@github.com:a/two.git")
              SimUp.upRequest (SimUp.process SimUp.deployed))) = [412].
Proof.
  split; [reflexivity|].
  destruct (@upHandler_stores_webhook_secret_first
              _ (SimUp.env "git@github.com:a/two.git") SimUp.upRequest
              (SimUp.process SimUp.deployed) "s3cret"
              {| common.Stream := false;
                 common.GitOptions := {| common.Branch := "master" |};
                 common.WebHookSecret := "s3cret" |}
              eq_refl eq_refl) as (S & _).
  split; [exact S | reflexivity].
Defined.

Lemma upHandler_initialize_failure_witness :
  In (CallInitialize
        {| project.ProjectName := "demo";
           project.BuildType := "dockerfile";
           project.BuildFilePath := "";
           project.RemoteURL := "git@github.com:a/one.git";
           project.Branch := "master";
           project.PemFilePath := "/app/host/.ssh/id_rsa";
           project.DatabasePath := "/app/host/data/project.db" |}
        (Some (Failure "repository not found")))
     (trace (inertiad.upHandler (SimUp.env "git@github.com:a/one.git")
               SimUp.upRequest (SimUp.process SimUp.unreachable))) /\
  statuses
    (trace (inertiad.upHandler (SimUp.env "git@github.com:a/one.git")
              SimUp.upRequest (SimUp.process SimUp.unreachable))) = [412].
Proof.
  assert (I : In (CallInitialize
        {| project.ProjectName := "demo";
           project.BuildType := "dockerfile";
           project.BuildFilePath := "";
           project.RemoteURL := "git@github.com:a/one.git";
           project.Branch := "master";
           project.PemFilePath := "/app/host/.ssh/id_rsa";
           project.DatabasePath := "/app/host/data/project.db" |}
        (Some (Failure "repository not found")))
     (trace (inertiad.upHandler (SimUp.env "git@github.com:a/one.git")
               SimUp.upRequest (SimUp.process SimUp.unreachable))))
    by (vm_compute; in_trace).
  split; [exact I|].
  destruct (@upHandler_initialize_failure_is_412
              _ (SimUp.env "git@github.com:a/one.git") SimUp.upRequest
              (SimUp.process SimUp.unreachable) _ _ I) as (S & _).
  exact S.
Defined.


(** * More on the container helpers *)

Lemma stopEach_steps {World} (cli : DockerClient World) cs :
  forall w,
    exists steps,
      trace (containers.stopEach cli cs w) = stopSteps steps /\
      Forall (fun s => In (fst (fst s)) cs /\
                       hd_error (types.Names (fst (fst s))) = Some (snd (fst s)) /\
                       snd (fst s) <> containers.daemonName) steps.
Proof.
  induction cs as [|c rest IH]; intros w.
  - exists []. split; [reflexivity | constructor].
  - destruct (types.Names c) as [|name names] eqn:EN.
    { rewrite stopEach_nameless by exact EN.
      exists []. split; [reflexivity | constructor]. }
    destruct (String.eqb name containers.daemonName) eqn:ED.
    { rewrite (stopEach_daemon cli c rest w EN ED). cbn [trace].
      destruct (IH w) as (steps & HT & HF). exists steps. split; [exact HT|].
      eapply Forall_impl; [|exact HF]. cbn. intros s (H1 & H2). auto. }
    assert (HN : name <> containers.daemonName)
      by (intros ->; rewrite String.eqb_refl in ED; discriminate).
    destruct (snd (cli_ContainerStop cli w (types.ID c) containers.stopTimeout))
      as [e|] eqn:ES.
    { rewrite (stopEach_failed cli c rest w EN ED ES). cbn [trace].
      exists [(c, name, Some e)]. split; [reflexivity|].
      constructor; [|constructor]. cbn. rewrite EN. auto. }
    rewrite (stopEach_stopped cli c rest w EN ED ES). cbn [trace].
    destruct (IH (fst (cli_ContainerStop cli w (types.ID c)
                         containers.stopTimeout))) as (steps & HT & HF).
    exists ((c, name, None) :: steps). split.
    + rewrite HT. reflexivity.
    + constructor.
      * cbn. rewrite EN. auto.
      * eapply Forall_impl; [|exact HF]. cbn. intros s (H1 & H2). auto.
Qed.

(** X3.  Teardown writes "Shutting down active containers...", lists the
    containers, and then does nothing but stop containers, each stop
    announced by its line "Stopping <name>..." right before it, the name
    being the first name of a listed container and never the daemon's; it
    ends there or with one prune. *)
Theorem stopActiveContainers_announces_each_stop :
  forall (World : Type) (cli : DockerClient World) (w : World)
         (cs : list types.Container),
    snd (cli_ContainerList cli w) = Ok cs ->
    exists steps tail,
      trace (containers.stopActiveContainers cli w)
      = Fprintln "Shutting down active containers..."
          :: CallContainerList (Ok cs) :: stopSteps steps ++ tail /\
      Forall (fun s => In (fst (fst s)) cs /\
                       hd_error (types.Names (fst (fst s)))
                       = Some (snd (fst s)) /\
                       snd (fst s) <> containers.daemonName) steps /\
      (tail = [] \/ exists pe, tail = [CallContainersPrune pe]).
Proof.
  intros World cli w cs HL.
  rewrite stopActiveContainers_eq. cbv zeta. rewrite HL.
  destruct (stopEach_steps cli cs (fst (cli_ContainerList cli w)))
    as (steps & HT & HF).
  exists steps.
  destruct (value (containers.stopEach cli cs _)) as [[e|]|why];
    cbn [trace]; rewrite HT.
  - exists []. rewrite app_nil_r. auto.
  - eexists. split; [reflexivity|]. split; [exact HF|]. right. eauto.
  - exists []. rewrite app_nil_r. auto.
Qed.

(** X4.  A nil return of teardown means the work was done: the listing
    succeeded, every listed container had a name, every container that is
    not the daemon got its stop, in listing order, no stop failed and the
    prune succeeded. *)
Theorem stopActiveContainers_nil_means_all_stopped :
  forall (World : Type) (cli : DockerClient World) (w : World),
    value (containers.stopActiveContainers cli w) = Returned None ->
    exists cs,
      snd (cli_ContainerList cli w) = Ok cs /\
      Forall named cs /\
      stopsIssued (trace (containers.stopActiveContainers cli w))
      = map stopOf (filter isProject cs) /\
      existsb stopFailed (trace (containers.stopActiveContainers cli w))
      = false /\
      In (CallContainersPrune None)
         (trace (containers.stopActiveContainers cli w)).
Proof.
  intros World cli w. rewrite stopActiveContainers_eq. cbv zeta.
  destruct (snd (cli_ContainerList cli w)) as [cs|le] eqn:HL;
    [|discriminate].
  pose proof (stopEach_spec cli cs (fst (cli_ContainerList cli w))) as S.
  unfold stopEach_post in S. destruct S as (_ & _ & S).
  destruct (value (containers.stopEach cli cs _)) as [[e|]|why];
    cbn [value trace]; try discriminate.
  intros HV. injection HV as HP. destruct S as (HN & HS & HF).
  exists cs. repeat split; auto.
  - rewrite stopsIssued_app. cbn [stopsIssued]. rewrite HS.
    apply app_nil_r.
  - rewrite existsb_app. cbn [existsb stopFailed orb]. rewrite HF.
    reflexivity.
  - rewrite HP. apply in_or_app. right. left. reflexivity.
Qed.

Lemma stopSteps_events steps x :
  In x (stopSteps steps) ->
  (exists line, x = Fprintln line) \/
  (exists id timeout res, x = CallContainerStop id timeout res).
Proof.
  unfold stopSteps. intros H. apply in_flat_map in H as (s & _ & H).
  cbn in H. destruct H as [<-|[<-|[]]]; eauto.
Qed.

Lemma no_failed_stop_no_error (tr : list event) :
  (forall x, In x tr ->
             (exists line, x = Fprintln line) \/
             (exists id timeout res, x = CallContainerStop id timeout res)) ->
  existsb stopFailed tr = false ->
  forall x, In x tr -> callError x = None.
Proof.
  intros Hshape HF x Hx.
  destruct (Hshape x Hx) as [(line & ->)|(id & timeout & res & ->)];
    [reflexivity|].
  destruct res as [e|]; [|reflexivity].
  exfalso. assert (existsb stopFailed tr = true)
    by (apply existsb_exists; eexists; split; [exact Hx | reflexivity]).
  congruence.
Qed.

(** X5.  The error teardown returns is the error of the last call it made to the
    Docker client (the listing, a stop or the prune), and no call before
    that one had failed: teardown goes on after no error and reports no
    error but the one that ended it. *)
Theorem stopActiveContainers_returns_last_error :
  forall (World : Type) (cli : DockerClient World) (w : World) (e : error),
    value (containers.stopActiveContainers cli w) = Returned (Some e) ->
    exists pre ev,
      trace (containers.stopActiveContainers cli w) = pre ++ [ev] /\
      callError ev = Some e /\
      forall x, In x pre -> callError x = None.
Proof.
  intros World cli w e. rewrite stopActiveContainers_eq. cbv zeta.
  destruct (snd (cli_ContainerList cli w)) as [cs|le] eqn:HL.
  2:{ cbn [value trace]. intros HV. injection HV as ->.
      exists [Fprintln "Shutting down active containers..."],
        (CallContainerList (Err e)).
      repeat split. intros x [<-|[]]. reflexivity. }
  pose proof (stopEach_spec cli cs (fst (cli_ContainerList cli w))) as S.
  unfold stopEach_post in S. destruct S as (_ & _ & S).
  destruct (stopEach_steps cli cs (fst (cli_ContainerList cli w)))
    as (steps & HT & _).
  assert (Hshape : forall x,
             In x (trace (containers.stopEach cli cs
                            (fst (cli_ContainerList cli w)))) ->
             (exists line, x = Fprintln line) \/
             (exists id timeout res, x = CallContainerStop id timeout res))
    by (rewrite HT; apply stopSteps_events).
  destruct (value (containers.stopEach cli cs _)) as [[e'|]|why];
    cbn [value trace]; try discriminate.
  - intros HV. injection HV as ->.
    destruct S as (pre & c & post & tr0 & _ & _ & _ & HT0 & _ & HF).
    exists (Fprintln "Shutting down active containers..."
              :: CallContainerList (Ok cs) :: tr0),
      (CallContainerStop (types.ID c) (10 * time.Second) (Some e)).
    rewrite HT0. repeat split.
    intros x [<-|[<-|Hx]]; try reflexivity.
    apply (no_failed_stop_no_error tr0); auto.
    intros y Hy. apply Hshape. rewrite HT0. apply in_or_app. auto.
  - intros HV. injection HV as HP. destruct S as (_ & _ & HF).
    eexists. eexists. split; [reflexivity|]. split; [exact HP|].
    intros x [<-|[<-|Hx]]; try reflexivity.
    apply (no_failed_stop_no_error _ Hshape HF x Hx).
Qed.

(** X6.  A listed container without a name stops teardown short: the prune is
    never reached and teardown does not return nil; unless a stop failed
    before, teardown panics on the index. *)
Theorem stopActiveContainers_nameless_container :
  forall (World : Type) (cli : DockerClient World) (w : World)
         (cs : list types.Container),
    snd (cli_ContainerList cli w) = Ok cs ->
    ~ Forall named cs ->
    existsb isPrune (trace (containers.stopActiveContainers cli w)) = false /\
    value (containers.stopActiveContainers cli w) <> Returned None /\
    (existsb stopFailed (trace (containers.stopActiveContainers cli w)) = false ->
     exists why, value (containers.stopActiveContainers cli w) = Panicked why).
Proof.
  intros World cli w cs HL HN.
  rewrite stopActiveContainers_eq. cbv zeta. rewrite HL.
  pose proof (stopEach_spec cli cs (fst (cli_ContainerList cli w))) as S.
  unfold stopEach_post in S. destruct S as (_ & HPr & S).
  destruct (value (containers.stopEach cli cs _)) as [[e'|]|why];
    cbn [value trace].
  - repeat split.
    + cbn [existsb isPrune orb]. exact HPr.
    + discriminate.
    + intros HF. exfalso.
      destruct S as (pre & c & post & tr0 & _ & _ & _ & HT0 & _ & _).
      rewrite HT0 in HF. cbn [existsb stopFailed orb] in HF.
      rewrite existsb_in_middle in HF by reflexivity. discriminate.
  - exfalso. apply HN. apply S.
  - repeat split.
    + cbn [existsb isPrune orb]. exact HPr.
    + discriminate.
    + eauto.
Qed.

(** getActiveContainers asks the runtime for the listing once and does
    nothing else; an error of the listing is returned as it is; and a
    success always carries the whole listing, of two containers or more. *)
Theorem getActiveContainers_lists_once :
  forall (World : Type) (cli : DockerClient World) (w : World),
    trace (containers.getActiveContainers cli w)
    = [CallContainerList (snd (cli_ContainerList cli w))] /\
    final (containers.getActiveContainers cli w)
    = fst (cli_ContainerList cli w) /\
    (forall e, snd (cli_ContainerList cli w) = Err e ->
               value (containers.getActiveContainers cli w)
               = Returned (Err e)) /\
    (forall cs, value (containers.getActiveContainers cli w)
                = Returned (Ok cs) ->
                snd (cli_ContainerList cli w) = Ok cs /\
                (2 <= List.length cs)%nat).
Proof.
  intros World cli w.
  unfold containers.getActiveContainers, containers.docker_ContainerList,
    bind, ret.
  destruct (cli_ContainerList cli w) as [w' [cs|le]]; cbn [fst snd].
  - destruct (List.length cs <=? 1)%nat eqn:E; cbn [trace final value].
    + split; [reflexivity|]. split; [reflexivity|].
      split; intros x Hx; discriminate.
    + split; [reflexivity|]. split; [reflexivity|].
      split; intros x Hx; [discriminate|].
      injection Hx as <-. split; [reflexivity|].
      apply Nat.leb_gt in E. lia.
  - cbn [trace final value].
    split; [reflexivity|]. split; [reflexivity|].
    split; intros x Hx; [|discriminate].
    injection Hx as <-. reflexivity.
Qed.


(** * More on downHandler and logHandler *)

(** X7.  downHandler calls Down only for a deployment whose status lists a
    container, once, between setting up the logger and closing it; the one
    status it reports is 200 when Down returned nil, 412 for
    ErrNoContainers and 500 for any other error, and nothing follows the
    closing of the logger. *)
Theorem downHandler_calls_Down_once :
  forall (World : Type) (s : daemon.Server World) (r : Request) (w : World)
         (res : option error),
    In (CallDown res) (trace (daemon.downHandler s r w)) ->
    exists status report,
      common.Containers status <> [] /\
      trace (daemon.downHandler s r w)
      = [CallGetStatus (Some status);
         NewLogger {| log.Stdout := true; log.Socket := false;
                      log.HTTPWriter := true; log.HTTPStream := false |};
         CallDown res; report; LogClose] /\
      status_of report = Some (downStatus res) /\
      statuses (trace (daemon.downHandler s r w)) = [downStatus res] /\
      value (daemon.downHandler s r w) = Returned tt.
Proof.
  intros World s r w res.
  run_down.
  repeat (run_step; run_down).
  all: cbn [In]; intros H; intuition (try discriminate).
  all: repeat match goal with
         | H : CallDown _ = CallDown _ |- _ => inversion H; clear H; subst
         end.
  all: eexists; eexists; split;
    [|split; [reflexivity|split; [reflexivity|split; reflexivity]]].
  all: intros HC;
    match goal with
    | H : (List.length _ =? 0)%nat = false |- _ =>
        rewrite HC in H; discriminate
    end.
Qed.

(** X8.  Before Down: when the status of the deployment lists no container,
    downHandler answers 412 with the "no deployment" message and does
    nothing else (Down is not called, no logger is set up, the world is as
    GetStatus left it); when GetStatus hands back no status at all, the
    handler panics on it without having answered. *)
Theorem downHandler_without_deployment :
  forall (World : Type) (s : daemon.Server World) (r : Request) (w : World),
    (forall status,
        snd (dep_GetStatus (daemon.deployment s) w) = Some status ->
        common.Containers status = [] ->
        daemon.downHandler s r w
        = Ran (Returned tt) (fst (dep_GetStatus (daemon.deployment s) w))
            [CallGetStatus (Some status);
             HttpError (Text daemon.msgNoDeployment)
               http.StatusPreconditionFailed]) /\
    (snd (dep_GetStatus (daemon.deployment s) w) = None ->
     exists why,
       daemon.downHandler s r w
       = Ran (Panicked why) (fst (dep_GetStatus (daemon.deployment s) w))
           [CallGetStatus None]).
Proof.
  intros World s r w.
  unfold daemon.downHandler, daemon.GetStatus, bind, emit, panic.
  destruct (dep_GetStatus (daemon.deployment s) w) as [w' st].
  cbn [fst snd]. split.
  - intros status -> HC. rewrite HC. reflexivity.
  - intros ->. eexists. reflexivity.
Qed.

(** X9.  A logs request whose stream or entries value is given and does not
    parse is turned down before anything is touched: the world is left as
    it was, and the handler does nothing but print and answer (no upgrade,
    no logger, no query to the runtime). *)
Theorem logHandler_bad_parameters_touch_nothing :
  forall (World : Type) (s : daemon.Server World)
         (api_Container api_Stream api_Entries : string)
         (r : Request) (w : World) (e : error),
    (url.Get (Query r) api_Stream <> "" /\
     strconv.ParseBool (url.Get (Query r) api_Stream) = Err e) \/
    (url.Get (Query r) api_Entries <> "" /\
     strconv.Atoi (url.Get (Query r) api_Entries) = Err e) ->
    final (daemon.logHandler s api_Container api_Stream api_Entries r w) = w /\
    forallb isPlainAnswer
      (trace (daemon.logHandler s api_Container api_Stream api_Entries r w))
    = true.
Proof.
  intros World s cK sK eK r w e [[NE HP]|[NE HP]]; unfold daemon.logHandler.
  - rewrite (parseStream_error NE HP). split; reflexivity.
  - rewrite (parseEntries_error NE HP).
    destruct (daemon.parseStream _); split; reflexivity.
Qed.





(** * More on upHandler *)

(** X13.  The webhook secret changes only when the body decodes: a body that
    cannot be read is answered 411 and one that cannot be decoded 400 (the
    body then closed), and in both cases the process is left exactly as it
    was, secret included. *)
Theorem upHandler_undecoded_request_changes_nothing :
  forall (World : Type) (env : inertiad.Imports World) (r : Request)
         (p : inertiad.Process World),
    (forall e, Body r = Err e ->
               inertiad.upHandler env r p
               = Ran (Returned tt) p
                   [HttpError (ErrorText e) http.StatusLengthRequired]) /\
    (forall body e,
        Body r = Ok body -> inertiad.json_Unmarshal env body = Err e ->
        inertiad.upHandler env r p
        = Ran (Returned tt) p
            [HttpError (ErrorText e) http.StatusBadRequest; BodyClose]) /\
    (inertiad.webhookSecret (final (inertiad.upHandler env r p))
     <> inertiad.webhookSecret p ->
     exists body upReq,
       Body r = Ok body /\ inertiad.json_Unmarshal env body = Ok upReq /\
       inertiad.webhookSecret (final (inertiad.upHandler env r p))
       = common.WebHookSecret upReq).
Proof.
  intros World env r p. split; [|split].
  - intros e HB. unfold inertiad.upHandler. rewrite HB. reflexivity.
  - intros body e HB HU. unfold inertiad.upHandler. rewrite HB.
    unfold defer. rewrite HU. reflexivity.
  - unfold inertiad.upHandler.
    destruct (Body r) as [body|e]; [|cbn; congruence].
    cbv beta iota delta [defer].
    destruct (inertiad.json_Unmarshal env body) as [upReq|e] eqn:HU;
      [|cbn; congruence].
    intros _. exists body, upReq. split; [reflexivity|]. split; [exact HU|].
    run_up.
    repeat (run_step; run_up).
    all: reflexivity.
Qed.

(** X14.  Every up request that returns has reported exactly one status, one of
    201, 400, 411, 412 and 500, and it is 201 exactly when the function
    Deploy returned was called and returned nil.  A request panics only on
    a nil status of the deployment, and then it has reported none. *)
Theorem upHandler_reports_one_status :
  forall (World : Type) (env : inertiad.Imports World) (r : Request)
         (p : inertiad.Process World),
    match value (inertiad.upHandler env r p) with
    | Returned _ =>
        exists status,
          statuses (trace (inertiad.upHandler env r p)) = [status] /\
          In status [http.StatusCreated; http.StatusBadRequest;
                     http.StatusLengthRequired;
                     http.StatusPreconditionFailed;
                     http.StatusInternalServerError] /\
          (status = http.StatusCreated <->
           In (CallDeployFunc None) (trace (inertiad.upHandler env r p)))
    | Panicked _ =>
        statuses (trace (inertiad.upHandler env r p)) = [] /\
        In (CallGetStatus None) (trace (inertiad.upHandler env r p))
    end.
Proof.
  intros World env r p.
  run_up.
  repeat (run_step; run_up).
  all: first
         [ split; [reflexivity | in_trace]
         | eexists; split; [reflexivity|]; split; [in_trace|];
           split; [intros H; first [discriminate H | in_trace]
                  | cbn [In]; intros H; intuition (try discriminate);
                    reflexivity] ].
Qed.

(** X15.  upHandler releases what it acquired, last of all and in reverse order,
    on every path, the panic included: the Docker client if it was created,
    then the logger if it was set up, then the body if it was read; each
    once and nothing else after. *)
Theorem upHandler_releases_in_reverse_order :
  forall (World : Type) (env : inertiad.Imports World) (r : Request)
         (p : inertiad.Process World),
    exists pre,
      trace (inertiad.upHandler env r p)
      = pre
        ++ (if existsb isClientCreated pre then [CliClose] else [])
        ++ (if existsb isNewLogger pre then [LogClose] else [])
        ++ (match Body r with Ok _ => [BodyClose] | Err _ => [] end) /\
      existsb isClose pre = false.
Proof.
  intros World env r p.
  run_up.
  repeat (run_step; run_up).
  all: match goal with
       | |- exists pre, ?tr = _ /\ _ =>
           exists (filter (fun e => negb (isClose e)) tr)
       end.
  all: split; reflexivity.
Qed.

(** X16.  The update of an existing deployment: when the status carries a commit
    hash and the remotes match, Initialize is not called; the branch the
    request asks for is set on the deployment, and nothing else of its
    configuration; then Deploy is called, once, with SkipUpdate unset. *)
Theorem upHandler_updates_existing_deployment :
  forall (World : Type) (env : inertiad.Imports World) (r : Request)
         (p : inertiad.Process World) (body : string)
         (upReq : common.UpRequest) (status : common.DeploymentStatus)
         (remote : string),
    Body r = Ok body ->
    inertiad.json_Unmarshal env body = Ok upReq ->
    In (CallGetStatus (Some status)) (trace (inertiad.upHandler env r p)) ->
    common.CommitHash status <> "" ->
    In (CallCompareRemotes remote None) (trace (inertiad.upHandler env r p)) ->
    existsb isInitialize (trace (inertiad.upHandler env r p)) = false /\
    exists pre res post,
      trace (inertiad.upHandler env r p)
      = pre
        ++ CallCompareRemotes remote None
        :: CallSetConfig (branchOnly (common.Branch (common.GitOptions upReq)))
        :: CallDeploy {| project.SkipUpdate := false |} res
        :: post /\
      existsb isDeploymentCall post
      = match res with None => true | Some _ => false end /\
      (forall e, In e post -> isDeploymentCall e = true ->
                 exists dr, e = CallDeployFunc dr).
Proof.
  intros World env r p body upReq status remote HB HU.
  unfold inertiad.upHandler. rewrite HB.
  cbv beta iota delta [defer]. rewrite HU.
  run_up.
  repeat (run_step; run_up).
  all: cbn [In]; intros H1 HC H2; intuition (try discriminate).
  all: repeat match goal with
         | H : CallGetStatus _ = CallGetStatus _ |- _ =>
             inversion H; clear H; subst
         | H : CallCompareRemotes _ _ = CallCompareRemotes _ _ |- _ =>
             inversion H; clear H; subst
         end.
  all: try (exfalso; apply HC; apply String.eqb_eq; assumption).
  all: match goal with
       | |- exists pre res post, ?a :: ?b :: ?c :: ?d :: ?e :: ?rest = _ /\ _ =>
           exists [a; b; c; d; e]
       end.
  all: eexists; eexists; split; [reflexivity|].
  all: split; [reflexivity|].
  all: cbn [In]; intros x Hx Hd; intuition (subst; try discriminate; eauto).
Qed.

(** X17.  The two failures before the deployment is looked at.  When the project
    configuration cannot be read, the answer is 412 with a fixed message
    (the error itself is not passed on) and neither the Docker client nor
    the deployment is touched.  When the Docker client cannot be created,
    the answer is 500 with its error, the deployment is not touched and no
    client is closed. *)
Theorem upHandler_configuration_failures :
  forall (World : Type) (env : inertiad.Imports World) (r : Request)
         (p : inertiad.Process World),
    (forall path e,
        In (CallReadProjectConfig path (Some e))
           (trace (inertiad.upHandler env r p)) ->
        statuses (trace (inertiad.upHandler env r p))
        = [http.StatusPreconditionFailed] /\
        In (LogWriteErr (Text "Failed to read project configuration")
              http.StatusPreconditionFailed)
           (trace (inertiad.upHandler env r p)) /\
        existsb isDeploymentCall (trace (inertiad.upHandler env r p)) = false) /\
    (forall e,
        In (CallNewDockerClient (Some e)) (trace (inertiad.upHandler env r p)) ->
        statuses (trace (inertiad.upHandler env r p))
        = [http.StatusInternalServerError] /\
        In (LogWriteErr (ErrorText e) http.StatusInternalServerError)
           (trace (inertiad.upHandler env r p)) /\
        List.length
          (filter isDeploymentCall (trace (inertiad.upHandler env r p)))
        = 1%nat /\
        ~ In CliClose (trace (inertiad.upHandler env r p))).
Proof.
  intros World env r p. split.
  - intros path e. run_up.
    repeat (run_step; run_up).
    all: cbn [In]; intros H; intuition (try discriminate).
    all: repeat match goal with
           | H : CallReadProjectConfig _ _ = CallReadProjectConfig _ _ |- _ =>
               inversion H; clear H; subst
           end.
    all: try discriminate.
    all: close_run.
  - intros e. run_up.
    repeat (run_step; run_up).
    all: cbn [In]; intros H; intuition (try discriminate).
    all: repeat match goal with
           | H : CallNewDockerClient _ = CallNewDockerClient _ |- _ =>
               inversion H; clear H; subst
           end.
    all: try discriminate.
    all: close_run.
    all: cbn [In]; intuition discriminate.
Qed.

(** X18.  A repository cloned in this very request is still compared: after an
    Initialize that succeeded, the next call on the deployment is
    CompareRemotes, with the very remote Initialize was given; and whenever
    CompareRemotes returns an error, also after such a clone, the answer is
    412 and nothing is deployed. *)
Theorem upHandler_compares_after_initialize :
  forall (World : Type) (env : inertiad.Imports World) (r : Request)
         (p : inertiad.Process World),
    (forall cfg,
        In (CallInitialize cfg None) (trace (inertiad.upHandler env r p)) ->
        exists pre res post,
          trace (inertiad.upHandler env r p)
          = pre ++ CallInitialize cfg None
                :: CallCompareRemotes (project.RemoteURL cfg) res :: post) /\
    (forall remote e,
        In (CallCompareRemotes remote (Some e))
           (trace (inertiad.upHandler env r p)) ->
        statuses (trace (inertiad.upHandler env r p))
        = [http.StatusPreconditionFailed] /\
        existsb isDeploy (trace (inertiad.upHandler env r p)) = false).
Proof.
  intros World env r p. split.
  - intros cfg. run_up.
    repeat (run_step; run_up).
    all: cbn [In]; intros H; intuition (try discriminate).
    all: repeat match goal with
           | H : CallInitialize _ _ = CallInitialize _ _ |- _ =>
               inversion H; clear H; subst
           end.
    all: try discriminate.
    all: match goal with
         | |- exists pre res post,
               ?a :: ?b :: ?c :: ?d :: ?e :: ?f :: ?rest = _ =>
             exists [a; b; c; d; e; f]
         end.
    all: eexists; eexists; reflexivity.
  - intros remote e. run_up.
    repeat (run_step; run_up).
    all: cbn [In]; intros H; intuition (try discriminate).
    all: repeat match goal with
           | H : CallCompareRemotes _ _ = CallCompareRemotes _ _ |- _ =>
               inversion H; clear H; subst
           end.
    all: try discriminate.
    all: close_run.
Qed.

(** X19.  How a deployment ends: an error of Deploy is answered 500 and the
    function it would have returned is not called; the function is called
    only after a Deploy that succeeded, and its error is answered 500, its
    nil 201. *)
Theorem upHandler_deploy_outcomes :
  forall (World : Type) (env : inertiad.Imports World) (r : Request)
         (p : inertiad.Process World),
    (forall o e,
        In (CallDeploy o (Some e)) (trace (inertiad.upHandler env r p)) ->
        statuses (trace (inertiad.upHandler env r p))
        = [http.StatusInternalServerError] /\
        In (LogWriteErr (ErrorText e) http.StatusInternalServerError)
           (trace (inertiad.upHandler env r p)) /\
        forall res,
          ~ In (CallDeployFunc res) (trace (inertiad.upHandler env r p))) /\
    (forall res,
        In (CallDeployFunc res) (trace (inertiad.upHandler env r p)) ->
        (exists o, In (CallDeploy o None) (trace (inertiad.upHandler env r p))) /\
        statuses (trace (inertiad.upHandler env r p))
        = [match res with
           | None => http.StatusCreated
           | Some _ => http.StatusInternalServerError
           end]).
Proof.
  intros World env r p. split.
  - intros o e. run_up.
    repeat (run_step; run_up).
    all: cbn [In]; intros H; intuition (try discriminate).
    all: repeat match goal with
           | H : CallDeploy _ _ = CallDeploy _ _ |- _ =>
               inversion H; clear H; subst
           end.
    all: try discriminate.
    all: close_run.
  - intros res. run_up.
    repeat (run_step; run_up).
    all: cbn [In]; intros H; intuition (try discriminate).
    all: repeat match goal with
           | H : CallDeployFunc _ = CallDeployFunc _ |- _ =>
               inversion H; clear H; subst
           end.
    all: try discriminate.
    all: first [reflexivity | eexists; in_trace].
Qed.


(** ** More of the theorems at work on the small hosts *)

Lemma stopActiveContainers_announces_each_stop_witness :
  snd (cli_ContainerList Sim.cli (Sim.host Sim.fleet [] None)) = Ok Sim.fleet /\
  exists steps tail,
    trace (containers.stopActiveContainers Sim.cli (Sim.host Sim.fleet [] None))
    = Fprintln "Shutting down active containers..."
        :: CallContainerList (Ok Sim.fleet) :: stopSteps steps ++ tail /\
    (tail = [] \/ exists pe, tail = [CallContainersPrune pe]).
Proof.
  split; [reflexivity|].
  destruct (@stopActiveContainers_announces_each_stop
              _ Sim.cli (Sim.host Sim.fleet [] None) Sim.fleet eq_refl)
    as (steps & tail & Ht & _ & Hp).
  exists steps, tail. split; [exact Ht|exact Hp].
Defined.

Lemma stopActiveContainers_nil_means_all_stopped_witness :
  value (containers.stopActiveContainers Sim.cli (Sim.host Sim.fleet [] None))
  = Returned None /\
  stopsIssued
    (trace (containers.stopActiveContainers Sim.cli
              (Sim.host Sim.fleet [] None)))
  = [("a1", 10000000000); ("b2", 10000000000); ("c3", 10000000000)].
Proof.
  split; [reflexivity|].
  destruct (@stopActiveContainers_nil_means_all_stopped
              _ Sim.cli (Sim.host Sim.fleet [] None) eq_refl)
    as (cs & Hl & _ & Hs & _).
  injection Hl as <-. exact Hs.
Defined.

Lemma stopActiveContainers_returns_last_error_witness :
  value (containers.stopActiveContainers Sim.cli Sim.failingHost)
  = Returned (Some (Failure "cannot stop container: b2")) /\
  exists pre ev,
    trace (containers.stopActiveContainers Sim.cli Sim.failingHost)
    = pre ++ [ev] /\
    callError ev = Some (Failure "cannot stop container: b2") /\
    forall x, In x pre -> callError x = None.
Proof.
  split; [reflexivity|].
  exact (@stopActiveContainers_returns_last_error
           _ Sim.cli Sim.failingHost (Failure "cannot stop container: b2")
           eq_refl).
Defined.

Lemma stopActiveContainers_nameless_container_witness :
  existsb isPrune (trace (containers.stopActiveContainers Sim.cli namelessHost))
  = false /\
  exists why,
    value (containers.stopActiveContainers Sim.cli namelessHost)
    = Panicked why.
Proof.
  destruct (@stopActiveContainers_nameless_container
              _ Sim.cli namelessHost (Sim.active namelessHost) eq_refl)
    as (Hp & _ & Hw).
  - intros H. apply Forall_inv_tail in H. apply Forall_inv in H.
    apply H. reflexivity.
  - split; [exact Hp|]. apply Hw. reflexivity.
Defined.

Lemma downHandler_calls_Down_once_witness :
  In (CallDown (Some ErrNoContainers))
    (trace (daemon.downHandler (Sim.server ["/web"] (Some ErrNoContainers))
              (Sim.logsRequest []) (Sim.host Sim.fleet [] None))) /\
  statuses
    (trace (daemon.downHandler (Sim.server ["/web"] (Some ErrNoContainers))
              (Sim.logsRequest []) (Sim.host Sim.fleet [] None)))
  = [412].
Proof.
  assert (G : In (CallDown (Some ErrNoContainers))
                (trace (daemon.downHandler
                          (Sim.server ["/web"] (Some ErrNoContainers))
                          (Sim.logsRequest []) (Sim.host Sim.fleet [] None))))
    by (vm_compute; in_trace).
  split; [exact G|].
  destruct (@downHandler_calls_Down_once
              _ (Sim.server ["/web"] (Some ErrNoContainers))
              (Sim.logsRequest []) (Sim.host Sim.fleet [] None) _ G)
    as (status & report & _ & _ & _ & Hs & _).
  exact Hs.
Defined.

Lemma logHandler_bad_parameters_touch_nothing_witness :
  final (Sim.logHandler
           (Sim.logsRequest [("container", ["app"]); ("entries", ["ten"])])
           (Sim.logHost 3))
  = Sim.logHost 3 /\
  forallb isPlainAnswer
    (trace (Sim.logHandler
              (Sim.logsRequest [("container", ["app"]); ("entries", ["ten"])])
              (Sim.logHost 3)))
  = true.
Proof.
  apply (@logHandler_bad_parameters_touch_nothing
           _ (Sim.server ["/app"] None) "container" "stream" "entries"
           (Sim.logsRequest [("container", ["app"]); ("entries", ["ten"])])
           (Sim.logHost 3) (SyntaxError "Atoi" "ten")).
  right. split; [discriminate|reflexivity].
Defined.


Lemma upHandler_updates_existing_deployment_witness :
  existsb isInitialize
    (trace (inertiad.upHandler (SimUp.env "git@github.com:a/one.git")
              SimUp.upRequest (SimUp.process SimUp.deployed)))
  = false /\
  In (CallDeploy {| project.SkipUpdate := false |} None)
    (trace (inertiad.upHandler (SimUp.env "git@github.com:a/one.git")
              SimUp.upRequest (SimUp.process SimUp.deployed))).
Proof.
  assert (G : In (CallGetStatus
                    (Some {| common.CommitHash := "c0ffee";
                             common.Containers := [] |}))
                 (trace (inertiad.upHandler
                           (SimUp.env "git@github.com:a/one.git")
                           SimUp.upRequest (SimUp.process SimUp.deployed))))
    by (vm_compute; in_trace).
  assert (C : In (CallCompareRemotes "git@github.com:a/one.git" None)
                 (trace (inertiad.upHandler
                           (SimUp.env "git@github.com:a/one.git")
                           SimUp.upRequest (SimUp.process SimUp.deployed))))
    by (vm_compute; in_trace).
  destruct (@upHandler_updates_existing_deployment
              _ (SimUp.env "git@github.com:a/one.git") SimUp.upRequest
              (SimUp.process SimUp.deployed) "s3cret" _ _ _
              eq_refl eq_refl G ltac:(discriminate) C)
    as (Hi & _).
  split; [exact Hi|]. vm_compute. in_trace.
Defined.


(** * The EC2 provisioner *)

Ltac aws_unfold :=
  cbv beta iota zeta delta
    [provision.bind provision.ret provision.say provision.crash
     provision.unfinished provision.deref provision.lift provision.pure
     provision.withRegion provision.sleep provision.getenv].

Lemma portRules_fold (ports : list Z) :
  forall rules,
    fold_left (fun rules port => rules ++ [provision.openPort port None])
      ports rules
    = rules ++ map (fun port => provision.openPort port None) ports.
Proof.
  induction ports as [|port ports IH]; intros rules; cbn [fold_left map].
  - symmetry. apply app_nil_r.
  - rewrite IH, <- app_assoc. reflexivity.
Qed.

(** X20.  exposePorts makes one call, whose error it returns, for the group it was
    given, with two rules more than it was given ports: the first opens 22,
    the second the daemon port, and the others the ports given, in their
    order, one rule each, repeated ports included.  Every rule opens a
    single port, over tcp, to every IPv4 and every IPv6 address. *)
Theorem exposePorts_rules :
  forall (World : Type) (client : provision.Client World)
         (securityGroupID : string) (daemonPort : Z) (ports : list Z)
         (w : World),
    exists input,
      provision.exposePorts client securityGroupID daemonPort ports w
      = provision.Ran
          (provision.Finished
             (snd (provision.ec2_AuthorizeSecurityGroupIngress
                     client w input)))
          (fst (provision.ec2_AuthorizeSecurityGroupIngress client w input))
          [provision.AuthorizeSecurityGroupIngress input
             (snd (provision.ec2_AuthorizeSecurityGroupIngress
                     client w input))] /\
      ec2.AuthorizeSecurityGroupIngressInput.GroupId input
      = Some securityGroupID /\
      map ec2.IpPermission.FromPort
        (ec2.AuthorizeSecurityGroupIngressInput.IpPermissions input)
      = map Some (22 :: daemonPort :: ports) /\
      Forall (fun rule =>
                ec2.IpPermission.ToPort rule = ec2.IpPermission.FromPort rule /\
                ec2.IpPermission.IpProtocol rule = Some "tcp"%string /\
                map ec2.IpRange.CidrIp (ec2.IpPermission.IpRanges rule)
                = [Some "0.0.0.0/0"%string] /\
                map ec2.Ipv6Range.CidrIpv6 (ec2.IpPermission.Ipv6Ranges rule)
                = [Some "::/0"%string])
        (ec2.AuthorizeSecurityGroupIngressInput.IpPermissions input).
Proof.
  intros World client securityGroupID daemonPort ports w.
  exists {| ec2.AuthorizeSecurityGroupIngressInput.GroupId :=
              Some securityGroupID;
            ec2.AuthorizeSecurityGroupIngressInput.IpPermissions :=
              provision.portRules daemonPort ports |}.
  split.
  - unfold provision.exposePorts, provision.lift.
    destruct (provision.ec2_AuthorizeSecurityGroupIngress client w _)
      as [w' err].
    reflexivity.
  - cbn [ec2.AuthorizeSecurityGroupIngressInput.GroupId
         ec2.AuthorizeSecurityGroupIngressInput.IpPermissions].
    unfold provision.portRules. rewrite portRules_fold.
    split; [reflexivity|]. split.
    + cbn [map app]. rewrite map_map. cbn. rewrite <- map_map with (g := Some).
      rewrite map_id. reflexivity.
    + repeat constructor.
      apply Forall_forall. intros rule Hr.
      apply in_map_iff in Hr as (port & <- & _). repeat split.
Qed.

Lemma pickImages_from (sorted : list ec2.Image.t) :
  forall images,
    (List.length images <= 10)%nat ->
    provision.pickImages sorted images
    = match imageLines
              (firstn (10 - List.length images) (filter hasName sorted)) with
      | Returned lines => Returned (images ++ lines)
      | Panicked why => Panicked why
      end.
Proof.
  induction sorted as [|image rest IH]; intros images Hlen.
  - cbn. rewrite firstn_nil. cbn. rewrite app_nil_r. reflexivity.
  - cbn [provision.pickImages filter].
    destruct (List.length images =? 10)%nat eqn:E.
    + apply Nat.eqb_eq in E. rewrite E, Nat.sub_diag. cbn.
      rewrite app_nil_r. reflexivity.
    + apply Nat.eqb_neq in E. unfold hasName at 1.
      destruct (ec2.Image.Name image) as [name|].
      * destruct (10 - List.length images)%nat as [|k] eqn:K; [lia|].
        cbn [firstn imageLines].
        destruct (provision.imageLine image) as [line|why]; [|reflexivity].
        rewrite IH by (rewrite length_app; cbn; lia).
        rewrite length_app. cbn [List.length].
        replace (10 - (List.length images + 1))%nat with k by lia.
        destruct (imageLines (firstn k (filter hasName rest)));
          [|reflexivity].
        rewrite <- app_assoc. reflexivity.
      * apply IH. exact Hlen.
Qed.

Lemma imageLines_length images lines :
  imageLines images = Returned lines ->
  List.length lines = List.length images.
Proof.
  revert lines. induction images as [|image rest IH]; intros lines; cbn.
  - intros H. injection H as <-. reflexivity.
  - destruct (provision.imageLine image); [|discriminate].
    destruct (imageLines rest) as [ls|]; [|discriminate].
    intros H. injection H as <-. cbn. f_equal. apply IH. reflexivity.
Qed.

(** X21.  ListImageOptions sets the region, asks for the images once and offers
    the first ten of the sorted images that carry a name, each as
    "id (description)", in sorted order: images without a name are passed
    over and do not count, and nothing beyond the tenth is looked at.  It
    panics when one of the images it offers lacks an id or a description.
    At most ten lines are ever returned. *)
Theorem ListImageOptions_offers_first_ten_named :
  forall (World : Type) (client : provision.Client World) (region : string)
         (w : World) (images sorted : list ec2.Image.t),
    snd (provision.ec2_DescribeImages client
           (provision.ec2_WithRegion client w region) provision.imagesQuery)
    = Ok images ->
    provision.sort_Slice client (provision.newerFirst client) images
    = Returned sorted ->
    provision.value (provision.ListImageOptions client region w)
    = match imageLines (offered sorted) with
      | Returned lines => provision.Finished (Ok lines)
      | Panicked why => provision.Crashed why
      end /\
    provision.calls (provision.ListImageOptions client region w)
    = [provision.WithRegion region;
       provision.DescribeImages provision.imagesQuery (Ok images)] /\
    (forall lines,
        provision.value (provision.ListImageOptions client region w)
        = provision.Finished (Ok lines) ->
        (List.length lines <= 10)%nat /\
        List.length lines = List.length (offered sorted)).
Proof.
  intros World client region w images sorted HD HS.
  assert (HV : provision.value (provision.ListImageOptions client region w)
               = match imageLines (offered sorted) with
                 | Returned lines => provision.Finished (Ok lines)
                 | Panicked why => provision.Crashed why
                 end).
  { unfold provision.ListImageOptions. aws_unfold.
    destruct (provision.ec2_DescribeImages client _ _) as [w2 output].
    cbn [snd] in HD. subst output. rewrite HS. cbv beta iota.
    rewrite pickImages_from by (cbn; lia). cbn [List.length].
    rewrite Nat.sub_0_r. fold (offered sorted).
    destruct (imageLines (offered sorted)); reflexivity. }
  split; [exact HV|]. split.
  - unfold provision.ListImageOptions. aws_unfold.
    destruct (provision.ec2_DescribeImages client _ _) as [w2 output].
    cbn [snd] in HD. subst output. rewrite HS. cbv beta iota.
    destruct (provision.pickImages sorted []); reflexivity.
  - intros lines HL. rewrite HV in HL.
    destruct (imageLines (offered sorted)) as [ls|] eqn:EL; [|discriminate].
    injection HL as <-.
    apply imageLines_length in EL. rewrite EL. split; [|reflexivity].
    unfold offered. rewrite length_firstn. lia.
Qed.

(** When the listing of images fails, ListImageOptions returns that error
    and no images, having set the region and asked once; nothing is sorted. *)
Theorem ListImageOptions_listing_failure :
  forall (World : Type) (client : provision.Client World) (region : string)
         (w : World) (e : error),
    snd (provision.ec2_DescribeImages client
           (provision.ec2_WithRegion client w region) provision.imagesQuery)
    = Err e ->
    provision.ListImageOptions client region w
    = provision.Ran (provision.Finished (Err e))
        (fst (provision.ec2_DescribeImages client
                (provision.ec2_WithRegion client w region)
                provision.imagesQuery))
        [provision.WithRegion region;
         provision.DescribeImages provision.imagesQuery (Err e)].
Proof.
  intros World client region w e HD.
  unfold provision.ListImageOptions. aws_unfold.
  destruct (provision.ec2_DescribeImages client _ _) as [w2 output].
  cbn [fst snd] in *. subst output. reflexivity.
Qed.

(** X22.  On images that carry a creation date the comparison of ListImageOptions
    never panics and is a strict weak order, as a sort needs: no image comes
    before itself, coming before is transitive, and so is being tied.  An
    image whose date parses comes before every image whose date does not. *)
Theorem newerFirst_strict_weak_order :
  forall (World : Type) (client : provision.Client World)
         (i j k : ec2.Image.t),
    dated i -> dated j -> dated k ->
    (exists b, provision.newerFirst client i j = Returned b) /\
    provision.newerFirst client i i = Returned false /\
    (provision.newerFirst client i j = Returned true ->
     provision.newerFirst client j k = Returned true ->
     provision.newerFirst client i k = Returned true) /\
    (provision.newerFirst client i j = Returned false ->
     provision.newerFirst client j i = Returned false ->
     provision.newerFirst client j k = Returned false ->
     provision.newerFirst client k j = Returned false ->
     provision.newerFirst client i k = Returned false /\
     provision.newerFirst client k i = Returned false) /\
    (forall iDate jDate,
        ec2.Image.CreationDate i = Some iDate ->
        ec2.Image.CreationDate j = Some jDate ->
        provision.common_ParseDate client iDate <> None ->
        provision.common_ParseDate client jDate = None ->
        provision.newerFirst client i j = Returned true /\
        provision.newerFirst client j i = Returned false).
Proof.
  intros World client i j k Hi Hj Hk.
  unfold dated, provision.newerFirst in *.
  destruct (ec2.Image.CreationDate i) as [iDate|]; [|contradiction].
  destruct (ec2.Image.CreationDate j) as [jDate|]; [|contradiction].
  destruct (ec2.Image.CreationDate k) as [kDate|]; [|contradiction].
  split; [|split; [|split; [|split]]].
  - destruct (provision.common_ParseDate client iDate);
      destruct (provision.common_ParseDate client jDate); eauto.
  - destruct (provision.common_ParseDate client iDate); [|reflexivity].
    rewrite Z.ltb_irrefl. reflexivity.
  - destruct (provision.common_ParseDate client iDate) as [ic|];
      destruct (provision.common_ParseDate client jDate) as [jc|];
      destruct (provision.common_ParseDate client kDate) as [kc|];
      intros H1 H2; try discriminate; try reflexivity.
    injection H1 as H1. injection H2 as H2.
    apply Z.ltb_lt in H1. apply Z.ltb_lt in H2.
    f_equal. apply Z.ltb_lt. lia.
  - destruct (provision.common_ParseDate client iDate) as [ic|];
      destruct (provision.common_ParseDate client jDate) as [jc|];
      destruct (provision.common_ParseDate client kDate) as [kc|];
      intros H1 H2 H3 H4; try discriminate; try (split; reflexivity).
    injection H1 as H1. injection H2 as H2.
    injection H3 as H3. injection H4 as H4.
    apply Z.ltb_ge in H1. apply Z.ltb_ge in H2.
    apply Z.ltb_ge in H3. apply Z.ltb_ge in H4.
    split; f_equal; apply Z.ltb_ge; lia.
  - intros iD jD H1 H2 H3 H4. injection H1 as <-. injection H2 as <-.
    rewrite H4.
    destruct (provision.common_ParseDate client iDate); [|contradiction].
    split; reflexivity.
Qed.


(** ** Pacing *)

Lemma paced_nil : paced [].
Proof.
  intros pre c post H. destruct pre; discriminate.
Qed.

Lemma paced_cons c rest : notPoll c -> paced rest -> paced (c :: rest).
Proof.
  intros Hc Hr pre c' post H. destruct pre as [|x pre].
  - injection H as <- _. destruct c; try exact I; contradiction.
  - injection H as <- H. specialize (Hr pre c' post H).
    destruct c'; try exact I; destruct Hr as [before ->];
      exists (c :: before); reflexivity.
Qed.

Lemma paced_describe input r rest :
  paced rest ->
  paced (provision.Sleep (3 * time.Second)
         :: provision.DescribeInstances input r :: rest).
Proof.
  intros Hr pre c post H. destruct pre as [|x [|y pre]].
  - injection H as <- _. exact I.
  - injection H as <- <- _. exists []. reflexivity.
  - injection H as <- <- H. specialize (Hr pre c post H).
    destruct c; try exact I; destruct Hr as [before ->];
      eexists (_ :: _ :: before); reflexivity.
Qed.

Lemma paced_dial network address r rest :
  paced rest ->
  paced (provision.Sleep (3 * time.Second)
         :: provision.Fprintln [Text "Checking ports..."%string]
         :: provision.Dial network address r :: rest).
Proof.
  intros Hr pre c post H. destruct pre as [|x [|y [|z pre]]].
  - injection H as <- _. exact I.
  - injection H as <- <- _. exact I.
  - injection H as <- <- <- _. exists []. reflexivity.
  - injection H as <- <- <- H. specialize (Hr pre c post H).
    destruct c; try exact I; destruct Hr as [before ->];
      eexists (_ :: _ :: _ :: before); reflexivity.
Qed.

Lemma paced_app l1 l2 : paced l1 -> paced l2 -> paced (l1 ++ l2).
Proof.
  intros H1 H2 pre c post H.
  apply app_eq_app in H as [l [[-> H]|[-> H]]].
  - destruct l as [|x l].
    + cbn in H. specialize (H2 [] c post (eq_sym H)).
      destruct c; try exact I; destruct H2 as [before Hb];
        destruct before; discriminate.
    + injection H as <- _. exact (H1 pre c l eq_refl).
  - specialize (H2 l c post H).
    destruct c; try exact I; destruct H2 as [before ->];
      exists (l1 ++ before); rewrite app_assoc; reflexivity.
Qed.

(** ** The two loops *)

(** One step of a run that is the left side of an equation. *)
Ltac aws_step :=
  match goal with
  | |- (?run = _ -> _) =>
      match run with
      | context [match ?x with _ => _ end] => destruct_innermost x
      end
  end.

Ltac aws_done :=
  let H := fresh "H" in
  intros H; inversion H; subst; clear H; cbn [app].

Lemma awaitRunning_run {World} (client : provision.Client World)
  (id : option string) (turns : nat) :
  forall w v w' calls,
    provision.awaitRunning client turns id w = provision.Ran v w' calls ->
    Forall statusCall calls /\
    paced calls /\
    match v with
    | provision.Finished (Ok instance) =>
        exists result s,
          In (provision.DescribeInstances
                {| ec2.DescribeInstancesInput.InstanceIds := [id] |}
                (Ok result)) calls /\
          provision.firstInstance result = Some instance /\
          ec2.Instance.State instance = Some s /\
          provision.started s = true
    | provision.Finished (Err e) =>
        In (provision.DescribeInstances
              {| ec2.DescribeInstancesInput.InstanceIds := [id] |} (Err e))
          calls
    | provision.Crashed _ => False
    | provision.Unfinished => True
    end.
Proof.
  induction turns as [|turns IH]; intros w v w' calls.
  - cbn. aws_done. split; [constructor|]. split; [apply paced_nil|exact I].
  - cbn [provision.awaitRunning]. aws_unfold.
    repeat aws_step; aws_done;
      try match goal with
          | E : provision.awaitRunning client turns id _ = _ |- _ =>
              apply IH in E; destruct E as (IHs & IHp & IHv)
          end.
    all: split;
      [repeat (constructor; cbn; eauto)
      |split;
       [apply paced_describe;
        repeat first [apply paced_nil | assumption
                     | apply paced_cons; [exact I|]]
       |]].
    all: try assumption.
    all: try (left; reflexivity).
    all: try (right; left; reflexivity).
    all: try match goal with
             | |- match ?v with _ => _ end =>
                 destruct v as [[?|?]| |]; cbn [In]; eauto
             end.
    all: try (destruct IHv as (result & s' & Hin & Hf & Hs & Hst);
              exists result, s'; repeat split; auto 6).
    all: try (eexists; eexists; split; [right; left; reflexivity|];
              repeat split; eassumption).
    all: auto 6.
Qed.

Lemma awaitPort_run {World} (client : provision.Client World)
  (host : string) (turns : nat) :
  forall w v w' calls,
    provision.awaitPort client turns host w = provision.Ran v w' calls ->
    Forall portCall calls /\
    paced calls /\
    match v with
    | provision.Finished _ =>
        In (provision.Dial "tcp" (host ++ ":22") None) calls
    | provision.Crashed _ => False
    | provision.Unfinished =>
        List.length (filter isDial calls) = turns /\
        forall network address,
          ~ In (provision.Dial network address None) calls
    end.
Proof.
  induction turns as [|turns IH]; intros w v w' calls.
  - cbn. aws_done. split; [constructor|]. split; [apply paced_nil|].
    split; [reflexivity|]. intros ? ? [].
  - cbn [provision.awaitPort]. aws_unfold.
    repeat aws_step; aws_done;
      try match goal with
          | E : provision.awaitPort client turns host _ = _ |- _ =>
              apply IH in E; destruct E as (IHs & IHp & IHv)
          end.
    all: split;
      [repeat (constructor; cbn; eauto)
      |split;
       [apply paced_dial;
        repeat first [apply paced_nil | assumption
                     | apply paced_cons; [exact I|]]
       |]].
    all: try assumption.
    all: cbn [In filter isDial List.length].
    all: auto 6.
    all: destruct v as [?|?|]; auto 6.
    all: destruct IHv as (IHn & IHd); split; [congruence|].
    all: intros network address [H|[H|[H|H]]]; try discriminate.
    all: exact (IHd _ _ H).
Qed.

(** An answer reached within some number of turns is reached within any
    greater number. *)
Lemma awaitRunning_more_turns {World} (client : provision.Client World)
  (id : option string) (n : nat) :
  forall m w,
    (n <= m)%nat ->
    provision.value (provision.awaitRunning client n id w)
    <> provision.Unfinished ->
    provision.awaitRunning client m id w
    = provision.awaitRunning client n id w.
Proof.
  induction n as [|n IH]; intros m w Hle Hv.
  - cbn in Hv. congruence.
  - destruct m as [|m]; [lia|].
    assert (Hm : (n <= m)%nat) by lia.
    revert Hv. cbn [provision.awaitRunning]. aws_unfold.
    repeat match goal with
           | |- context [match ?x with _ => _ end] =>
               lazymatch x with
               | context [provision.awaitRunning] => fail
               | _ => destruct_innermost x
               end
           end;
      try reflexivity.
    all: intros Hv; rewrite (IH m _ Hm); [reflexivity|].
    all: intros Hu; apply Hv;
      destruct (provision.awaitRunning client n id _) as [[?| |] ? ?];
      cbn in Hu |- *; congruence.
Qed.

Lemma awaitPort_more_turns {World} (client : provision.Client World)
  (host : string) (n : nat) :
  forall m w,
    (n <= m)%nat ->
    provision.value (provision.awaitPort client n host w)
    <> provision.Unfinished ->
    provision.awaitPort client m host w
    = provision.awaitPort client n host w.
Proof.
  induction n as [|n IH]; intros m w Hle Hv.
  - cbn in Hv. congruence.
  - destruct m as [|m]; [lia|].
    assert (Hm : (n <= m)%nat) by lia.
    revert Hv. cbn [provision.awaitPort]. aws_unfold.
    repeat match goal with
           | |- context [match ?x with _ => _ end] =>
               lazymatch x with
               | context [provision.awaitPort] => fail
               | _ => destruct_innermost x
               end
           end;
      try reflexivity.
    all: intros Hv; rewrite (IH m _ Hm); [reflexivity|].
    all: intros Hu; apply Hv;
      destruct (provision.awaitPort client n host _) as [[?| |] ? ?];
      cbn in Hu |- *; congruence.
Qed.


(** ** CreateInstance *)

Ltac aws_run :=
  unfold provision.CreateInstance, provision.startInstance,
    provision.finishInstance, provision.exposePorts;
  aws_unfold; repeat aws_step; aws_done.

Ltac aws_loops :=
  repeat match goal with
         | E : provision.awaitRunning _ _ _ _ = _ |- _ =>
             apply awaitRunning_run in E; destruct E as (? & ? & ?)
         | E : provision.awaitPort _ _ _ _ = _ |- _ =>
             apply awaitPort_run in E; destruct E as (? & ? & ?)
         end.

(** A call is in a list of calls written out. *)
Ltac find_call :=
  cbn [In];
  first [ eassumption
        | left; reflexivity
        | right; find_call
        | apply in_or_app; left; eassumption
        | apply in_or_app; right; find_call ].

Lemma started_code (s : ec2.InstanceState.t) :
  provision.started s = true ->
  ec2.InstanceState.Code s = Some provision.codeEC2InstanceStarted.
Proof.
  unfold provision.started.
  destruct (ec2.InstanceState.Code s) as [code|]; [|discriminate].
  intros H. apply Z.eqb_eq in H. congruence.
Qed.

(** X23.  A remote comes out of CreateInstance only after the instance was
    reported started (state code 16) under the public name that becomes the
    address of the remote, and after port 22 of that name accepted a
    connection.  The remote carries the name asked for, the user of the
    provisioner, SSH port 22, the daemon port in decimal, and as key the
    path under which the key was saved with success. *)
Theorem CreateInstance_remote :
  forall (World : Type) (client : provision.Client World) (turns : nat)
         (p : provision.EC2Provisioner)
         (opts : provision.EC2CreateInstanceOptions) (w : World)
         (remote : cfg.RemoteVPS),
    provision.value (provision.CreateInstance client turns p opts w)
    = provision.Finished (Ok remote) ->
    cfg.Name remote = provision.Name opts /\
    cfg.User remote = provision.user p /\
    cfg.SSHPort remote = "22"%string /\
    (exists secret,
        cfg.Daemon remote
        = Some {| cfg.Port := provision.itoa (provision.DaemonPort opts);
                  cfg.WebHookSecret := secret |}) /\
    (exists material,
        In (provision.SaveKey material (cfg.PEM remote) None)
          (provision.calls (provision.CreateInstance client turns p opts w))) /\
    (exists input result instance s,
        In (provision.DescribeInstances input (Ok result))
          (provision.calls (provision.CreateInstance client turns p opts w)) /\
        provision.firstInstance result = Some instance /\
        ec2.Instance.PublicDnsName instance = Some (cfg.IP remote) /\
        ec2.Instance.State instance = Some s /\
        ec2.InstanceState.Code s = Some provision.codeEC2InstanceStarted) /\
    In (provision.Dial "tcp" (cfg.IP remote ++ ":22") None)
      (provision.calls (provision.CreateInstance client turns p opts w)).
Proof.
  intros World client turns p opts w remote.
  destruct (provision.CreateInstance client turns p opts w)
    as [v w' calls] eqn:E.
  cbn [provision.value provision.calls]. revert E.
  aws_run; intros Hv; try discriminate; injection Hv as <-; aws_loops.
  all: cbn [cfg.Name cfg.User cfg.SSHPort cfg.Daemon cfg.PEM cfg.IP].
  all: repeat match goal with
              | H : exists _, _ |- _ => destruct H
              | H : _ /\ _ |- _ => destruct H
              end.
  all: repeat split; eauto.
  all: try (eexists; find_call).
  all: try find_call.
  all: do 4 eexists; split; [find_call|];
    repeat split; eauto using started_code.
Qed.

Lemma statusCall_not_run calls :
  Forall statusCall calls -> existsb isRunInstances calls = false.
Proof.
  induction 1 as [|c rest Hc _ IH]; [reflexivity|].
  cbn [existsb]. rewrite IH. destruct c; try contradiction; reflexivity.
Qed.

Lemma portCall_not_run calls :
  Forall portCall calls -> existsb isRunInstances calls = false.
Proof.
  induction 1 as [|c rest Hc _ IH]; [reflexivity|].
  cbn [existsb]. rewrite IH. destruct c; try contradiction; reflexivity.
Qed.

(** Where a call of a list written out is. *)
Ltac scan H :=
  repeat first
    [ apply in_app_or in H
    | progress cbn [In] in H
    | destruct H as [H|H] ];
  try discriminate H;
  try (exfalso; exact H);
  try match goal with
      | Hs : Forall statusCall ?l |- _ =>
          match type of H with
          | In _ l => apply (proj1 (Forall_forall _ _) Hs) in H
          end
      | Hs : Forall portCall ?l |- _ =>
          match type of H with
          | In _ l => apply (proj1 (Forall_forall _ _) Hs) in H
          end
      end;
  try (exfalso; exact H).

(** X24.  CreateInstance asks for an instance at most once, and only after the
    key pair was created and its material saved, the security group was
    created and the rules of exposePorts were accepted for that group, all
    with success.  It asks for exactly one instance, of the image and the
    type of the options, with the name of the key pair and the one group. *)
Theorem CreateInstance_requests_one_instance :
  forall (World : Type) (client : provision.Client World) (turns : nat)
         (p : provision.EC2Provisioner)
         (opts : provision.EC2CreateInstanceOptions) (w : World)
         (input : ec2.RunInstancesInput.t) (r : result ec2.Reservation.t),
    In (provision.RunInstances input r)
      (provision.calls (provision.CreateInstance client turns p opts w)) ->
    exists keyInput keyResp material path groupInput group before after,
      provision.calls (provision.CreateInstance client turns p opts w)
      = before ++ provision.RunInstances input r :: after /\
      existsb isRunInstances before = false /\
      existsb isRunInstances after = false /\
      In (provision.CreateKeyPair keyInput (Ok keyResp)) before /\
      ec2.CreateKeyPairOutput.KeyMaterial keyResp = Some material /\
      In (provision.SaveKey material path None) before /\
      In (provision.CreateSecurityGroup groupInput (Ok group)) before /\
      In (provision.AuthorizeSecurityGroupIngress
            {| ec2.AuthorizeSecurityGroupIngressInput.GroupId :=
                 ec2.CreateSecurityGroupOutput.GroupId group;
               ec2.AuthorizeSecurityGroupIngressInput.IpPermissions :=
                 provision.portRules (provision.DaemonPort opts)
                   (provision.Ports opts) |} None) before /\
      input
      = {| ec2.RunInstancesInput.ImageId := Some (provision.ImageID opts);
           ec2.RunInstancesInput.InstanceType :=
             Some (provision.InstanceType opts);
           ec2.RunInstancesInput.MinCount := Some 1;
           ec2.RunInstancesInput.MaxCount := Some 1;
           ec2.RunInstancesInput.KeyName :=
             ec2.CreateKeyPairOutput.KeyName keyResp;
           ec2.RunInstancesInput.SecurityGroupIds :=
             [ec2.CreateSecurityGroupOutput.GroupId group] |}.
Proof.
  intros World client turns p opts w input r.
  destruct (provision.CreateInstance client turns p opts w)
    as [v w' calls] eqn:E.
  cbn [provision.calls]. revert E.
  aws_run; intros Hin; aws_loops; scan Hin.
  all: injection Hin as <- <-.
  all: do 6 eexists.
  all: match goal with
       | |- exists before after,
             ?a :: ?b :: ?c :: ?d :: ?e :: ?f :: ?g :: ?h :: ?i :: ?j
             :: provision.RunInstances _ _ :: ?rest = _ /\ _ =>
           exists [a; b; c; d; e; f; g; h; i; j], rest
       end.
  all: split; [reflexivity|].
  all: split; [reflexivity|].
  all: split;
    [repeat first
       [ rewrite existsb_app
       | progress cbn [existsb isRunInstances orb]
       | rewrite statusCall_not_run by assumption
       | rewrite portCall_not_run by assumption ];
     reflexivity|].
  all: repeat match goal with
              | H : ec2.CreateSecurityGroupOutput.GroupId _ = _ |- _ =>
                  rewrite H
              | H : ec2.CreateKeyPairOutput.KeyName _ = _ |- _ => rewrite H
              end.
  all: split; [find_call|].
  all: split; [eassumption|].
  all: split; [find_call|].
  all: split; [find_call|].
  all: split; [find_call|reflexivity].
Qed.

(** X25.  A failure to tag the instance is written on the writer and is not
    fatal: from the request for tags on, CreateInstance returns no error and
    does not panic; it returns a remote, or is still waiting for port 22.
    The tags asked for are Name, with the name of the options, and Purpose,
    on the instance that was seen started. *)
Theorem CreateInstance_survives_tagging :
  forall (World : Type) (client : provision.Client World) (turns : nat)
         (p : provision.EC2Provisioner)
         (opts : provision.EC2CreateInstanceOptions) (w : World)
         (input : ec2.CreateTagsInput.t) (r : option error),
    In (provision.CreateTags input r)
      (provision.calls (provision.CreateInstance client turns p opts w)) ->
    ((exists remote,
         provision.value (provision.CreateInstance client turns p opts w)
         = provision.Finished (Ok remote)) \/
     provision.value (provision.CreateInstance client turns p opts w)
     = provision.Unfinished) /\
    (forall err,
        r = Some err ->
        In (provision.Fprintln [Text "Failed to set tags: "; ErrorText err])
          (provision.calls (provision.CreateInstance client turns p opts w))) /\
    ec2.CreateTagsInput.Tags input
    = [{| ec2.Tag.Key := Some "Name"%string;
          ec2.Tag.Value := Some (provision.Name opts) |};
       {| ec2.Tag.Key := Some "Purpose"%string;
          ec2.Tag.Value := Some "Inertia Continuous Deployment"%string |}] /\
    exists instanceInput result instance,
      In (provision.DescribeInstances instanceInput (Ok result))
        (provision.calls (provision.CreateInstance client turns p opts w)) /\
      provision.firstInstance result = Some instance /\
      ec2.CreateTagsInput.Resources input = [ec2.Instance.InstanceId instance].
Proof.
  intros World client turns p opts w input r.
  destruct (provision.CreateInstance client turns p opts w)
    as [v w' calls] eqn:E.
  cbn [provision.value provision.calls]. revert E.
  aws_run; intros Hin; aws_loops; scan Hin.
  all: try contradiction.
  all: injection Hin as <- <-.
  all: repeat match goal with
              | H : exists _, _ |- _ => destruct H
              | H : _ /\ _ |- _ => destruct H
              end.
  all: split; [first [left; eexists; reflexivity | right; reflexivity]|].
  all: split;
    [intros err Herr; first [discriminate Herr
                            | injection Herr as <-; find_call]|].
  all: split; [reflexivity|].
  all: do 3 eexists; split; [find_call|]; split; [eassumption|reflexivity].
Qed.

(** X26.  The webhook secret of the remote is the random string that was
    generated, which is announced on the writer.  When none can be
    generated the error is written, the line that follows announces the
    default secret 'inertia', and the secret of the remote is "interia". *)
Theorem CreateInstance_webhook_secret :
  forall (World : Type) (client : provision.Client World) (turns : nat)
         (p : provision.EC2Provisioner)
         (opts : provision.EC2CreateInstanceOptions) (w : World)
         (remote : cfg.RemoteVPS),
    provision.value (provision.CreateInstance client turns p opts w)
    = provision.Finished (Ok remote) ->
    exists generated before,
      provision.calls (provision.CreateInstance client turns p opts w)
      = before
        ++ provision.GenerateRandomString generated
        :: match generated with
           | Ok secret =>
               [provision.Fprintf
                  ("Generated webhook secret: '" ++ secret ++ "'"
                   ++ provision.nl)%string]
           | Err err =>
               [provision.Fprintln [ErrorText err];
                provision.Fprintln [Text "Using default secret 'inertia'"]]
           end /\
      option_map cfg.WebHookSecret (cfg.Daemon remote)
      = Some match generated with
             | Ok secret => secret
             | Err _ => "interia"%string
             end.
Proof.
  intros World client turns p opts w remote.
  destruct (provision.CreateInstance client turns p opts w)
    as [v w' calls] eqn:E.
  cbn [provision.value provision.calls]. revert E.
  aws_run; intros Hv; try discriminate; injection Hv as <-.
  all: match goal with
       | H : provision.common_GenerateRandomString _ _ = (_, ?g) |- _ =>
           exists g
       end.
  all: eexists; split; [|reflexivity].
  all: repeat match goal with
              | |- ?x :: ?l = ?before ++ _ =>
                  let b := fresh "b" in
                  evar (b : list provision.call);
                  unify before (x :: b); subst b; cbn [app]; f_equal
              | |- ?c ++ ?l = ?before ++ _ =>
                  let b := fresh "b" in
                  evar (b : list provision.call);
                  unify before (c ++ b); subst b;
                  rewrite <- app_assoc; f_equal
              end.
  all: instantiate (1 := []); reflexivity.
Qed.

(** X27.  Every request for the state of the instance comes right after a sleep
    of three seconds, and every dial right after such a sleep and the line
    that announces it: CreateInstance never asks twice in a row. *)
Theorem CreateInstance_paced :
  forall (World : Type) (client : provision.Client World) (turns : nat)
         (p : provision.EC2Provisioner)
         (opts : provision.EC2CreateInstanceOptions) (w : World),
    paced (provision.calls (provision.CreateInstance client turns p opts w)).
Proof.
  intros World client turns p opts w.
  destruct (provision.CreateInstance client turns p opts w)
    as [v w' calls] eqn:E.
  cbn [provision.calls]. revert E.
  aws_run; aws_loops.
  all: repeat first [ apply paced_nil
                    | assumption
                    | apply paced_cons; [exact I|]
                    | apply paced_app ].
Qed.

Lemma statusCall_not_dial calls :
  Forall statusCall calls -> existsb isDial calls = false.
Proof.
  induction 1 as [|c rest Hc _ IH]; [reflexivity|].
  cbn [existsb]. rewrite IH. destruct c; try contradiction; reflexivity.
Qed.

Lemma statusCall_no_dial calls :
  Forall statusCall calls -> filter isDial calls = [].
Proof.
  induction 1 as [|c rest Hc _ IH]; [reflexivity|].
  cbn [filter]. rewrite IH. destruct c; try contradiction; reflexivity.
Qed.

(** One of the disjuncts holds, by the calls and the facts at hand. *)
Ltac pick :=
  first [ solve [repeat first [eexists | split];
                 first [find_call | eassumption | reflexivity]]
        | left; pick
        | right; pick ].

(** X28.  An error that CreateInstance returns is the error of the creation of the
    key pair, of the saving of the key, of the creation of the security
    group, of the rules, of the request for the instance or of a request for
    its state, or it says that no instance was started or that the started
    instance has no public name.  No error is returned once the wait for
    port 22 has begun: there has been no dial. *)
Theorem CreateInstance_errors :
  forall (World : Type) (client : provision.Client World) (turns : nat)
         (p : provision.EC2Provisioner)
         (opts : provision.EC2CreateInstanceOptions) (w : World)
         (err : error),
    provision.value (provision.CreateInstance client turns p opts w)
    = provision.Finished (Err err) ->
    existsb isDial
      (provision.calls (provision.CreateInstance client turns p opts w))
    = false /\
    ((exists input,
         In (provision.CreateKeyPair input (Err err))
           (provision.calls (provision.CreateInstance client turns p opts w)))
     \/
     (exists material path,
         In (provision.SaveKey material path (Some err))
           (provision.calls (provision.CreateInstance client turns p opts w)))
     \/
     (exists input,
         In (provision.CreateSecurityGroup input (Err err))
           (provision.calls (provision.CreateInstance client turns p opts w)))
     \/
     (exists input,
         In (provision.AuthorizeSecurityGroupIngress input (Some err))
           (provision.calls (provision.CreateInstance client turns p opts w)))
     \/
     (exists input,
         In (provision.RunInstances input (Err err))
           (provision.calls (provision.CreateInstance client turns p opts w)))
     \/
     (exists input reservation,
         In (provision.RunInstances input (Ok reservation))
           (provision.calls (provision.CreateInstance client turns p opts w))
         /\ ec2.Reservation.Instances reservation = []
         /\ err = Failure ("Unable to start instances: "
                           ++ provision.Reservation_String client reservation))
     \/
     (exists input,
         In (provision.DescribeInstances input (Err err))
           (provision.calls (provision.CreateInstance client turns p opts w)))
     \/
     (exists input result instance,
         In (provision.DescribeInstances input (Ok result))
           (provision.calls (provision.CreateInstance client turns p opts w))
         /\ provision.firstInstance result = Some instance
         /\ ec2.Instance.PublicDnsName instance = None
         /\ err = Failure ("Unable to find public IP address for instance: "
                           ++ provision.Instance_String client instance))).
Proof.
  intros World client turns p opts w err.
  destruct (provision.CreateInstance client turns p opts w)
    as [v w' calls] eqn:E.
  cbn [provision.value provision.calls]. revert E.
  aws_run; intros Hv; try discriminate; injection Hv as <-; aws_loops.
  all: repeat match goal with
              | H : exists _, _ |- _ => destruct H
              | H : _ /\ _ |- _ => destruct H
              end.
  all: split;
    [repeat first
       [ rewrite existsb_app
       | progress cbn [existsb isDial orb]
       | rewrite statusCall_not_dial by assumption ];
     reflexivity|].
  all: pick.
Qed.

(** X29.  CreateInstance panics only on a nil pointer in an answer that reported
    success: a key pair without a name or without material, or a security
    group without an id.  No instance has been asked for then. *)
Theorem CreateInstance_panics :
  forall (World : Type) (client : provision.Client World) (turns : nat)
         (p : provision.EC2Provisioner)
         (opts : provision.EC2CreateInstanceOptions) (w : World)
         (why : string),
    provision.value (provision.CreateInstance client turns p opts w)
    = provision.Crashed why ->
    why = "nil pointer dereference"%string /\
    existsb isRunInstances
      (provision.calls (provision.CreateInstance client turns p opts w))
    = false /\
    ((exists input keyResp,
         In (provision.CreateKeyPair input (Ok keyResp))
           (provision.calls (provision.CreateInstance client turns p opts w))
         /\ (ec2.CreateKeyPairOutput.KeyName keyResp = None \/
             ec2.CreateKeyPairOutput.KeyMaterial keyResp = None))
     \/
     (exists input group,
         In (provision.CreateSecurityGroup input (Ok group))
           (provision.calls (provision.CreateInstance client turns p opts w))
         /\ ec2.CreateSecurityGroupOutput.GroupId group = None)).
Proof.
  intros World client turns p opts w why.
  destruct (provision.CreateInstance client turns p opts w)
    as [v w' calls] eqn:E.
  cbn [provision.value provision.calls]. revert E.
  aws_run; intros Hv; try discriminate; injection Hv as <-; aws_loops.
  all: try contradiction.
  all: split; [reflexivity|].
  all: split; [reflexivity|].
  all: first
         [ left; do 2 eexists; split; [find_call|];
           first [left; assumption | right; assumption]
         | right; do 2 eexists; split; [find_call|assumption] ].
Qed.

(** One step of a run outside its two loops. *)
Ltac aws_step_outside :=
  match goal with
  | |- context [match ?x with _ => _ end] =>
      lazymatch x with
      | context [provision.awaitRunning] => fail
      | context [provision.awaitPort] => fail
      | _ => destruct_innermost x
      end
  end.

(** CreateInstance waits in two loops that have no bound.  Whatever it
    answers when each loop is given some number of turns, it answers when
    they are given more, with the same calls and the same final state: the
    answer does not depend on the bound. *)
Theorem CreateInstance_more_turns :
  forall (World : Type) (client : provision.Client World) (n m : nat)
         (p : provision.EC2Provisioner)
         (opts : provision.EC2CreateInstanceOptions) (w : World),
    (n <= m)%nat ->
    provision.value (provision.CreateInstance client n p opts w)
    <> provision.Unfinished ->
    provision.CreateInstance client m p opts w
    = provision.CreateInstance client n p opts w.
Proof.
  intros World client n m p opts w Hle.
  unfold provision.CreateInstance, provision.startInstance,
    provision.finishInstance, provision.exposePorts.
  aws_unfold.
  repeat aws_step_outside; try reflexivity.
  all: intros Hv;
    rewrite (@awaitRunning_more_turns _ client _ n m _ Hle);
    [|intros Hu; apply Hv;
      destruct (provision.awaitRunning client n _ _) as [[?| |] ? ?];
      cbn in Hu |- *; congruence].
  all: revert Hv;
    destruct (provision.awaitRunning client n _ _) as [[[?|?]| |] ? ?];
    repeat aws_step_outside; try reflexivity.
  all: intros Hv;
    rewrite (@awaitPort_more_turns _ client _ n m _ Hle);
    [reflexivity|].
  all: intros Hu; apply Hv;
    destruct (provision.awaitPort client n _ _) as [[?| |] ? ?];
    cbn in Hu |- *; congruence.
Qed.

Lemma awaitPort_unanswered {World} (client : provision.Client World)
  (host : string) (turns : nat) :
  (forall w network address,
      snd (provision.net_Dial client w network address) <> None) ->
  forall w,
    provision.value (provision.awaitPort client turns host w)
    = provision.Unfinished.
Proof.
  intros Hdial. induction turns as [|turns IH]; intros w; [reflexivity|].
  cbn [provision.awaitPort]. aws_unfold.
  destruct (provision.net_Dial client _ _ _) as [w1 [e|]] eqn:E.
  - specialize (IH w1).
    destruct (provision.awaitPort client turns host w1) as [v ? ?].
    cbn in IH. subst v. reflexivity.
  - exfalso. eapply Hdial. rewrite E. reflexivity.
Qed.

(** X30.  CreateInstance has no time limit on the wait for port 22.  While no
    connection is accepted, whatever the number of turns its loops are
    given, a run that has begun to wait for the port is still waiting when
    they are used up, having dialled once a turn. *)
Theorem CreateInstance_waits_without_limit :
  forall (World : Type) (client : provision.Client World) (turns : nat)
         (p : provision.EC2Provisioner)
         (opts : provision.EC2CreateInstanceOptions) (w : World),
    (forall w network address,
        snd (provision.net_Dial client w network address) <> None) ->
    In (provision.Fprintln [Text "Waiting for ports to open..."])
      (provision.calls (provision.CreateInstance client turns p opts w)) ->
    provision.value (provision.CreateInstance client turns p opts w)
    = provision.Unfinished /\
    List.length
      (filter isDial
         (provision.calls (provision.CreateInstance client turns p opts w)))
    = turns.
Proof.
  intros World client turns p opts w Hdial.
  destruct (provision.CreateInstance client turns p opts w)
    as [v w' calls] eqn:E.
  cbn [provision.value provision.calls]. revert E.
  aws_run; intros Hin;
    try match goal with
        | E : provision.awaitPort _ _ ?host ?w1 = _ |- _ =>
            let Hu := fresh "Hu" in
            pose proof (@awaitPort_unanswered _ _ host turns Hdial w1) as Hu;
            rewrite E in Hu; cbn [provision.value] in Hu
        end;
    try discriminate; aws_loops; scan Hin.
  all: try (destruct Hin as [Hin|[Hin|[state Hin]]]; discriminate).
  all: try (destruct Hin as [Hin|Hin]; discriminate).
  all: split; [reflexivity|].
  all: repeat first
         [ rewrite filter_app
         | progress cbn [filter isDial app]
         | rewrite statusCall_no_dial by assumption ].
  all: repeat match goal with
              | H : _ /\ _ |- _ => destruct H
              end.
  all: rewrite ?app_nil_r; assumption.
Qed.


(** ** The provisioner at work on the small EC2 *)

Lemma ListImageOptions_offers_first_ten_named_witness :
  provision.value
    (provision.ListImageOptions SimEC2.client "us-east-1" SimEC2.cloud)
  = provision.Finished (Ok ["ami-4 (new)"; "ami-1 (old)"; "ami-3 (undated)"]%string)
  /\
  provision.calls
    (provision.ListImageOptions SimEC2.client "us-east-1" SimEC2.cloud)
  = [provision.WithRegion "us-east-1";
     provision.DescribeImages provision.imagesQuery
       (Ok [SimEC2.image (Some "amzn-a") "ami-1" "old" "100";
            SimEC2.image None "ami-2" "nameless" "300";
            SimEC2.image (Some "amzn-c") "ami-3" "undated" "soon";
            SimEC2.image (Some "amzn-d") "ami-4" "new" "200"]%string)].
Proof.
  edestruct (@ListImageOptions_offers_first_ten_named
               _ SimEC2.client "us-east-1"%string SimEC2.cloud)
    as (Hv & Hc & _); [reflexivity|reflexivity|].
  split; [exact Hv|exact Hc].
Defined.

Lemma ListImageOptions_listing_failure_witness :
  provision.ListImageOptions SimEC2.client "us-east-1"
    (SimEC2.start SimEC2.troubled 0 0)
  = provision.Ran (provision.Finished (Err (Failure "RequestLimitExceeded")))
      (SimEC2.setRegion "us-east-1" (SimEC2.start SimEC2.troubled 0 0))
      [provision.WithRegion "us-east-1";
       provision.DescribeImages provision.imagesQuery
         (Err (Failure "RequestLimitExceeded"))].
Proof.
  exact (@ListImageOptions_listing_failure
           _ SimEC2.client "us-east-1"%string
           (SimEC2.start SimEC2.troubled 0 0)
           (Failure "RequestLimitExceeded") eq_refl).
Defined.

Lemma newerFirst_strict_weak_order_witness :
  provision.newerFirst SimEC2.client
    (SimEC2.image (Some "amzn-d") "ami-4" "new" "200")
    (SimEC2.image (Some "amzn-c") "ami-3" "undated" "soon")
  = Returned true /\
  provision.newerFirst SimEC2.client
    (SimEC2.image (Some "amzn-c") "ami-3" "undated" "soon")
    (SimEC2.image (Some "amzn-d") "ami-4" "new" "200")
  = Returned false.
Proof.
  destruct (@newerFirst_strict_weak_order
              _ SimEC2.client
              (SimEC2.image (Some "amzn-d") "ami-4" "new" "200")
              (SimEC2.image (Some "amzn-c") "ami-3" "undated" "soon")
              (SimEC2.image (Some "amzn-a") "ami-1" "old" "100")
              ltac:(discriminate) ltac:(discriminate) ltac:(discriminate))
    as (_ & _ & _ & _ & H).
  apply (H "200"%string "soon"%string eq_refl eq_refl);
    [discriminate|reflexivity].
Defined.

Lemma CreateInstance_remote_witness :
  provision.value
    (provision.CreateInstance SimEC2.client 5 SimEC2.user SimEC2.options
       SimEC2.cloud)
  = provision.Finished (Ok SimEC2.remote) /\
  In (provision.Dial "tcp" "ec2-1.compute.amazonaws.com:22" None)
    (provision.calls
       (provision.CreateInstance SimEC2.client 5 SimEC2.user SimEC2.options
          SimEC2.cloud)).
Proof.
  split; [reflexivity|].
  destruct (@CreateInstance_remote
              _ SimEC2.client 5%nat SimEC2.user SimEC2.options SimEC2.cloud
              SimEC2.remote eq_refl)
    as (_ & _ & _ & _ & _ & _ & H).
  exact H.
Defined.

Lemma CreateInstance_requests_one_instance_witness :
  exists before after,
    provision.calls
      (provision.CreateInstance SimEC2.client 5 SimEC2.user SimEC2.options
         SimEC2.cloud)
    = before
      ++ provision.RunInstances SimEC2.request
           (Ok {| ec2.Reservation.Instances :=
                    [SimEC2.instance 0 "pending" None] |})
      :: after /\
    existsb isRunInstances before = false /\
    existsb isRunInstances after = false.
Proof.
  destruct (@CreateInstance_requests_one_instance
              _ SimEC2.client 5%nat SimEC2.user SimEC2.options SimEC2.cloud
              SimEC2.request
              (Ok {| ec2.Reservation.Instances :=
                       [SimEC2.instance 0 "pending" None] |}))
    as (_ & _ & _ & _ & _ & _ & before & after & Hc & Hb & Ha & _).
  - vm_compute. do 10 right. left. reflexivity.
  - exists before, after. split; [exact Hc|]. split; [exact Hb|exact Ha].
Defined.

Lemma CreateInstance_survives_tagging_witness :
  In (provision.CreateTags SimEC2.tags (Some (Failure "TagLimitExceeded")))
    (provision.calls
       (provision.CreateInstance SimEC2.client 5 SimEC2.user SimEC2.options
          (SimEC2.start SimEC2.troubled 0 0))) /\
  In (provision.Fprintln
        [Text "Failed to set tags: "; ErrorText (Failure "TagLimitExceeded")])
    (provision.calls
       (provision.CreateInstance SimEC2.client 5 SimEC2.user SimEC2.options
          (SimEC2.start SimEC2.troubled 0 0))).
Proof.
  assert (H : In (provision.CreateTags SimEC2.tags
                    (Some (Failure "TagLimitExceeded")))
                (provision.calls
                   (provision.CreateInstance SimEC2.client 5 SimEC2.user
                      SimEC2.options (SimEC2.start SimEC2.troubled 0 0)))).
  { vm_compute. do 15 right. left. reflexivity. }
  split; [exact H|].
  destruct (@CreateInstance_survives_tagging
              _ SimEC2.client 5%nat SimEC2.user SimEC2.options
              (SimEC2.start SimEC2.troubled 0 0) SimEC2.tags
              (Some (Failure "TagLimitExceeded")) H)
    as (_ & Hw & _).
  exact (Hw (Failure "TagLimitExceeded") eq_refl).
Defined.

Lemma CreateInstance_webhook_secret_witness :
  exists remote,
    provision.value
      (provision.CreateInstance SimEC2.client 5 SimEC2.user SimEC2.options
         (SimEC2.start SimEC2.troubled 0 0))
    = provision.Finished (Ok remote) /\
    cfg.Daemon remote
    = Some {| cfg.Port := "4303"; cfg.WebHookSecret := "interia" |} /\
    exists generated before,
      provision.calls
        (provision.CreateInstance SimEC2.client 5 SimEC2.user SimEC2.options
           (SimEC2.start SimEC2.troubled 0 0))
      = before
        ++ provision.GenerateRandomString generated
        :: match generated with
           | Ok secret =>
               [provision.Fprintf
                  ("Generated webhook secret: '" ++ secret ++ "'"
                   ++ provision.nl)%string]
           | Err err =>
               [provision.Fprintln [ErrorText err];
                provision.Fprintln [Text "Using default secret 'inertia'"]]
           end /\
      option_map cfg.WebHookSecret (cfg.Daemon remote)
      = Some match generated with
             | Ok secret => secret
             | Err _ => "interia"%string
             end.
Proof.
  eexists. split; [reflexivity|]. split; [reflexivity|].
  exact (@CreateInstance_webhook_secret
           _ SimEC2.client 5%nat SimEC2.user SimEC2.options
           (SimEC2.start SimEC2.troubled 0 0) _ eq_refl).
Defined.

Lemma CreateInstance_errors_witness :
  provision.value
    (provision.CreateInstance SimEC2.client 5 SimEC2.user SimEC2.options
       (SimEC2.start SimEC2.unnamed 1 0))
  = provision.Finished
      (Err (Failure "Unable to find public IP address for instance: {}")) /\
  existsb isDial
    (provision.calls
       (provision.CreateInstance SimEC2.client 5 SimEC2.user SimEC2.options
          (SimEC2.start SimEC2.unnamed 1 0)))
  = false.
Proof.
  split; [reflexivity|].
  destruct (@CreateInstance_errors
              _ SimEC2.client 5%nat SimEC2.user SimEC2.options
              (SimEC2.start SimEC2.unnamed 1 0)
              (Failure "Unable to find public IP address for instance: {}")
              eq_refl)
    as (H & _).
  exact H.
Defined.

Lemma CreateInstance_panics_witness :
  provision.value
    (provision.CreateInstance SimEC2.client 5 SimEC2.user SimEC2.options
       (SimEC2.start SimEC2.groupless 1 0))
  = provision.Crashed "nil pointer dereference" /\
  existsb isRunInstances
    (provision.calls
       (provision.CreateInstance SimEC2.client 5 SimEC2.user SimEC2.options
          (SimEC2.start SimEC2.groupless 1 0)))
  = false.
Proof.
  split; [reflexivity|].
  destruct (@CreateInstance_panics
              _ SimEC2.client 5%nat SimEC2.user SimEC2.options
              (SimEC2.start SimEC2.groupless 1 0)
              "nil pointer dereference"%string eq_refl)
    as (_ & H & _).
  exact H.
Defined.

Lemma CreateInstance_more_turns_witness :
  provision.CreateInstance SimEC2.client 40 SimEC2.user SimEC2.options
    SimEC2.cloud
  = provision.CreateInstance SimEC2.client 3 SimEC2.user SimEC2.options
      SimEC2.cloud /\
  provision.value
    (provision.CreateInstance SimEC2.client 2 SimEC2.user SimEC2.options
       SimEC2.cloud)
  = provision.Unfinished.
Proof.
  split; [|reflexivity].
  apply (@CreateInstance_more_turns
           _ SimEC2.client 3%nat 40%nat SimEC2.user SimEC2.options
           SimEC2.cloud).
  - lia.
  - vm_compute. discriminate.
Defined.

Lemma CreateInstance_waits_without_limit_witness :
  provision.value
    (provision.CreateInstance SimEC2.offline 7 SimEC2.user SimEC2.options
       (SimEC2.start SimEC2.account 0 0))
  = provision.Unfinished /\
  List.length
    (filter isDial
       (provision.calls
          (provision.CreateInstance SimEC2.offline 7 SimEC2.user
             SimEC2.options (SimEC2.start SimEC2.account 0 0))))
  = 7%nat.
Proof.
  apply (@CreateInstance_waits_without_limit
           _ SimEC2.offline 7%nat SimEC2.user SimEC2.options
           (SimEC2.start SimEC2.account 0 0)).
  - intros w network address. cbn. discriminate.
  - vm_compute. do 16 right. left. reflexivity.
Defined.
